(** * chrono-stride-ar: the AR scene component and the certificate script

    A shallow embedding of [ArScene] (its select, session and frame handlers
    and [startARSession]) and of [scripts/generate-cert.js].

    JavaScript numbers are IEEE 754 binary64 values, so coordinates are
    Rocq's primitive floats and [+] on them is the machine addition.  The
    three.js objects the component mutates are records; the refs of the
    component ([modelRef], [markerRef], ...) and its React state are the
    fields of one [State] record that every handler transforms. *)

From Stdlib Require Import Floats List String Bool Arith Lia.
From stdpp Require Import base option list gmap sets strings.
Import ListNotations.

Set Warnings "-inexact-float,-clear-no-such-hyp".
Set Default Proof Using "Type".

Local Open Scope string_scope.

(** ** three.js value types *)

(** [THREE.Vector3]: the methods the component calls. *)
Module Vector3.
Record t := mk { x : float; y : float; z : float }.

(** [new THREE.Vector3()] *)
Definition zero : t := mk 0 0 0.

(** [v.set(x, y, z)] *)
Definition set (_ : t) (x' y' z' : float) : t := mk x' y' z'.

(** [v.copy(w)] *)
Definition copy (_ : t) (w : t) : t := mk (x w) (y w) (z w).

(** [v.sub(w)] *)
Definition sub (v w : t) : t :=
  mk (x v - x w)%float (y v - y w)%float (z v - z w)%float.

(** [v.y += d] *)
Definition add_y (v : t) (d : float) : t := mk (x v) (y v + d)%float (z v).
End Vector3.

(** [THREE.Quaternion].  An [Object3D] keeps its [rotation] (Euler angles)
    and its [quaternion] in step: a write to either one rewrites the other.
    The orientation is stored here once, as the quaternion. *)
Module Quaternion.
Record t := mk { x : float; y : float; z : float; w : float }.

(** [new THREE.Quaternion()] *)
Definition identity : t := mk 0 0 0 1.

(** [q.copy(p)] *)
Definition copy (_ : t) (p : t) : t := mk (x p) (y p) (z p) (w p).

(** [q.setFromEuler(e)] for the default order XYZ, given the cosines
    [c1 c2 c3] and sines [s1 s2 s3] of the three half angles. *)
Definition setFromEuler (c1 c2 c3 s1 s2 s3 : float) : t :=
  mk (s1 * c2 * c3 + c1 * s2 * s3)%float
     (c1 * s2 * c3 - s1 * c2 * s3)%float
     (c1 * c2 * s3 + s1 * s2 * c3)%float
     (c1 * c2 * c3 - s1 * s2 * s3)%float.

(** [Math.cos(0)] and [Math.sin(0)] *)
Definition cos0 : float := 1.
Definition sin0 : float := 0.

(** What [object.rotation.set(0, 0, 0)] leaves in [object.quaternion]. *)
Definition of_zero_rotation : t := setFromEuler cos0 cos0 cos0 sin0 sin0 sin0.
End Quaternion.

(** [THREE.Matrix4]: sixteen numbers in column-major order. *)
Module Matrix4.
Record t := mk { elements : list float }.

(** [new THREE.Matrix4()] *)
Definition identity : t :=
  mk [1; 0; 0; 0;  0; 1; 0; 0;  0; 0; 1; 0;  0; 0; 0; 1]%float.

(** [m.fromArray(array)]: [elements[i] = array[i]] for [i] from 0 to 15;
    an index past the end of [array] reads [undefined], which as a number
    is NaN. *)
Definition fromArray (_ : t) (array : list float) : t :=
  mk (map (fun i => nth i array nan) (seq 0 16)).

(** [m.compose(position, quaternion, scale)]: the matrix of the rotation
    [quaternion], scaled column by column, with [position] in the last
    column. *)
Definition compose (_ : t) (position : Vector3.t) (quaternion : Quaternion.t)
    (scale : Vector3.t) : t :=
  let x := Quaternion.x quaternion in
  let y := Quaternion.y quaternion in
  let z := Quaternion.z quaternion in
  let w := Quaternion.w quaternion in
  let x2 := (x + x)%float in
  let y2 := (y + y)%float in
  let z2 := (z + z)%float in
  let xx := (x * x2)%float in
  let xy := (x * y2)%float in
  let xz := (x * z2)%float in
  let yy := (y * y2)%float in
  let yz := (y * z2)%float in
  let zz := (z * z2)%float in
  let wx := (w * x2)%float in
  let wy := (w * y2)%float in
  let wz := (w * z2)%float in
  let sx := Vector3.x scale in
  let sy := Vector3.y scale in
  let sz := Vector3.z scale in
  mk [ (1 - (yy + zz)) * sx; (xy + wz) * sx; (xz - wy) * sx; 0;
       (xy - wz) * sy; (1 - (xx + zz)) * sy; (yz + wx) * sy; 0;
       (xz + wy) * sz; (yz - wx) * sz; (1 - (xx + yy)) * sz; 0;
       Vector3.x position; Vector3.y position; Vector3.z position; 1 ]%float.
End Matrix4.

(** The children of the marker group: a filled mesh and its outline. *)
Inductive Material :=
| MeshBasicMaterial (opacity : float)
| LineBasicMaterial.

Inductive Child :=
| Mesh (material : Material)
| LineSegments (material : Material).

(** [THREE.Object3D] (a [Group] is one): the fields the component touches. *)
Module Object3D.
Record t := mk {
  position : Vector3.t;
  quaternion : Quaternion.t;
  scale : Vector3.t;
  matrix : Matrix4.t;
  visible : bool;
  children : list Child
}.

(** [new THREE.Group()] *)
Definition create : t :=
  mk Vector3.zero Quaternion.identity (Vector3.mk 1 1 1) Matrix4.identity
     true [].

Definition with_position (o : t) (p : Vector3.t) : t :=
  mk p (quaternion o) (scale o) (matrix o) (visible o) (children o).
Definition with_quaternion (o : t) (q : Quaternion.t) : t :=
  mk (position o) q (scale o) (matrix o) (visible o) (children o).
Definition with_scale (o : t) (s : Vector3.t) : t :=
  mk (position o) (quaternion o) s (matrix o) (visible o) (children o).
Definition with_matrix (o : t) (m : Matrix4.t) : t :=
  mk (position o) (quaternion o) (scale o) m (visible o) (children o).
Definition with_visible (o : t) (b : bool) : t :=
  mk (position o) (quaternion o) (scale o) (matrix o) b (children o).
Definition with_children (o : t) (c : list Child) : t :=
  mk (position o) (quaternion o) (scale o) (matrix o) (visible o) c.

(** [o.updateMatrix()]: the matrix is recomposed from position, quaternion
    and scale.  three.js calls it on every object whose [matrixAutoUpdate]
    is on, which is the default and is never turned off in the component. *)
Definition updateMatrix (o : t) : t :=
  with_matrix o
    (Matrix4.compose (matrix o) (position o) (quaternion o) (scale o)).
End Object3D.

(** ** WebXR values *)

Inductive XRReferenceSpaceType := local_floor | bounded_floor | local | viewer.

Definition type_name (ty : XRReferenceSpaceType) : string :=
  match ty with
  | local_floor => "local-floor"
  | bounded_floor => "bounded-floor"
  | local => "local"
  | viewer => "viewer"
  end.

(** A granted reference space, known by the type it was requested with. *)
Record XRReferenceSpace := { space_type : XRReferenceSpaceType }.

(** A hit-test source, known by the space it is bound to. *)
Record XRHitTestSource := { source_space : XRReferenceSpace }.

(** [XRRigidTransform]: a position, an orientation and their 4x4 matrix. *)
Record XRRigidTransform := {
  transform_position : Vector3.t;
  transform_orientation : Quaternion.t;
  transform_matrix : list float
}.

Record XRPose := { transform : XRRigidTransform }.

(** [hit.getPose(space)] is a pose or [null]. *)
Record XRHitTestResult := { getPose : XRReferenceSpace -> option XRPose }.

Record XRFrame := {
  getHitTestResults : XRHitTestSource -> list XRHitTestResult
}.

(** The two readings of [Math.sin(Date.now() * 0.005)] that one call of
    [pulseAnimation] takes. *)
Record Pulse := { sin_scale : float; sin_opacity : float }.

(** [session.requestHitTestSource(...)] resolves (to a source or to a falsy
    value) or rejects. *)
Inductive HitTestOutcome :=
| Resolved (source : option XRHitTestSource)
| Rejected.

(** An [XRSession] as the platform hands it out: which reference spaces it
    grants ([None]: the request is rejected) and, when the method exists,
    how [requestHitTestSource] answers. *)
Record XRSession := {
  requestReferenceSpace : XRReferenceSpaceType -> option XRReferenceSpace;
  requestHitTestSource : option (XRReferenceSpace -> HitTestOutcome)
}.

(** [navigator.xr]; [requestSession] resolves with a session or rejects. *)
Record XRSystem := { requestSession : option XRSession }.
Record Navigator := { xr : option XRSystem }.

(** Requests made to the platform, in the order they are issued. *)
Inductive Call :=
| CallRequestSession
| CallSetSession
| CallRequestReferenceSpace (ty : XRReferenceSpaceType)
| CallRequestHitTestSource (space : XRReferenceSpace).

(** ** The component's state *)

Record State := mkState {
  rendererRef : bool;
  modelRef : option Object3D.t;
  markerRef : option Object3D.t;
  hitTestSourceRef : option XRHitTestSource;
  hitTestSourceRequestedRef : bool;
  referenceSpaceRef : option XRReferenceSpace;
  errorMessage : string;
  isARSessionActive : bool;
  console : list string;
  calls : list Call
}.

Definition with_modelRef (s : State) (m : option Object3D.t) : State :=
  mkState (rendererRef s) m (markerRef s) (hitTestSourceRef s)
    (hitTestSourceRequestedRef s) (referenceSpaceRef s) (errorMessage s)
    (isARSessionActive s) (console s) (calls s).
Definition with_markerRef (s : State) (m : option Object3D.t) : State :=
  mkState (rendererRef s) (modelRef s) m (hitTestSourceRef s)
    (hitTestSourceRequestedRef s) (referenceSpaceRef s) (errorMessage s)
    (isARSessionActive s) (console s) (calls s).
Definition with_hitTestSourceRef (s : State) (h : option XRHitTestSource)
  : State :=
  mkState (rendererRef s) (modelRef s) (markerRef s) h
    (hitTestSourceRequestedRef s) (referenceSpaceRef s) (errorMessage s)
    (isARSessionActive s) (console s) (calls s).
Definition with_hitTestSourceRequestedRef (s : State) (b : bool) : State :=
  mkState (rendererRef s) (modelRef s) (markerRef s) (hitTestSourceRef s)
    b (referenceSpaceRef s) (errorMessage s)
    (isARSessionActive s) (console s) (calls s).
Definition with_referenceSpaceRef (s : State) (r : option XRReferenceSpace)
  : State :=
  mkState (rendererRef s) (modelRef s) (markerRef s) (hitTestSourceRef s)
    (hitTestSourceRequestedRef s) r (errorMessage s)
    (isARSessionActive s) (console s) (calls s).
Definition setErrorMessage (msg : string) (s : State) : State :=
  mkState (rendererRef s) (modelRef s) (markerRef s) (hitTestSourceRef s)
    (hitTestSourceRequestedRef s) (referenceSpaceRef s) msg
    (isARSessionActive s) (console s) (calls s).
Definition setIsARSessionActive (b : bool) (s : State) : State :=
  mkState (rendererRef s) (modelRef s) (markerRef s) (hitTestSourceRef s)
    (hitTestSourceRequestedRef s) (referenceSpaceRef s) (errorMessage s)
    b (console s) (calls s).

(** [console.log], [console.warn] and [console.error]: the message text. *)
Definition log (msg : string) (s : State) : State :=
  mkState (rendererRef s) (modelRef s) (markerRef s) (hitTestSourceRef s)
    (hitTestSourceRequestedRef s) (referenceSpaceRef s) (errorMessage s)
    (isARSessionActive s) (console s ++ [msg]) (calls s).

Definition call (c : Call) (s : State) : State :=
  mkState (rendererRef s) (modelRef s) (markerRef s) (hitTestSourceRef s)
    (hitTestSourceRequestedRef s) (referenceSpaceRef s) (errorMessage s)
    (isARSessionActive s) (console s) (calls s ++ [c]).

(** ** Mounting the component *)

(** The marker group the effect builds: the foot mesh (opacity 0.7) and its
    outline, hidden until a surface is hit. *)
Definition markerGroup : Object3D.t :=
  Object3D.with_visible
    (Object3D.with_children Object3D.create
       [Mesh (MeshBasicMaterial 0.7); LineSegments LineBasicMaterial])
    false.

(** The refs and the React state once the effect has run: renderer and
    marker exist, the model is still loading. *)
Definition mount : State :=
  mkState true None (Some markerGroup) None false None "" false
    ["Starting to load model..."] [].

(** The loader's success callback.  [model] is [gltf.scene]; [center] is the
    centre three.js computes for its bounding box, after
    [Box3.setFromObject] has brought the model's matrix up to date. *)
Definition onLoad (model : Object3D.t) (center : Vector3.t) (s : State)
  : State :=
  let s := log "Model loaded, processing..." s in
  let s := log "Model details:" s in
  let model := Object3D.with_scale model
                 (Vector3.set (Object3D.scale model) 0.1 0.1 0.1) in
  let model := Object3D.with_visible model true in
  let model := Object3D.with_position model
                 (Vector3.set (Object3D.position model) 0 0 0) in
  let model := Object3D.updateMatrix model in
  let model := Object3D.with_position model
                 (Vector3.sub (Object3D.position model) center) in
  let s := with_modelRef s (Some model) in
  log "Model added to scene successfully" s.

(** ** Session listeners *)

(** The ['sessionstart'] listener. *)
Definition on_sessionstart (s : State) : State :=
  let s := log "AR session started" s in
  let s := setIsARSessionActive true s in
  let s := with_hitTestSourceRequestedRef s false in
  match modelRef s with
  | Some model =>
      let s := log "Resetting model for AR session" s in
      let model := Object3D.with_visible model false in
      let model := Object3D.with_position model
                     (Vector3.set (Object3D.position model) 0 0 (-0.5)) in
      with_modelRef s (Some model)
  | None => log "Model not available during AR session start" s
  end.

(** The ['sessionend'] listener.  It also puts the preview camera back,
    which no other handler reads; the camera is left out of [State]. *)
Definition on_sessionend (s : State) : State :=
  let s := log "AR session ended" s in
  let s := setIsARSessionActive false s in
  let s :=
    match modelRef s with
    | Some model =>
        let model := Object3D.with_visible model true in
        let model := Object3D.with_position model
                       (Vector3.set (Object3D.position model) 0 0 (-0.5)) in
        let model := Object3D.with_quaternion model
                       Quaternion.of_zero_rotation in
        with_modelRef s (Some model)
    | None => s
    end in
  match markerRef s with
  | Some marker => with_markerRef s (Some (Object3D.with_visible marker false))
  | None => s
  end.

(** ** Placement on selection *)

(** [markerRef.current?.visible] as a condition: a missing marker is falsy. *)
Definition marker_visible (s : State) : bool :=
  match markerRef s with
  | Some marker => Object3D.visible marker
  | None => false
  end.

Definition onSelect (s : State) : State :=
  let s := log "Selection event triggered" s in
  match modelRef s, markerRef s with
  | Some model, Some marker =>
      if Object3D.visible marker then
        let s := log "Placing model at marker position" s in
        let model := Object3D.with_position model
                       (Vector3.copy (Object3D.position model)
                          (Object3D.position marker)) in
        let model := Object3D.with_quaternion model
                       (Quaternion.copy (Object3D.quaternion model)
                          (Object3D.quaternion marker)) in
        let model := Object3D.with_visible model true in
        let model := Object3D.with_position model
                       (Vector3.add_y (Object3D.position model) 0.05) in
        let s := with_modelRef s (Some model) in
        log "Model placed at:" s
      else log "Cannot place model:" s
  | _, _ => log "Cannot place model:" s
  end.

(** ** Per-frame hit-test update *)

Definition pulse_child (opacity : float) (child : Child) : Child :=
  match child with
  | Mesh (MeshBasicMaterial _) => Mesh (MeshBasicMaterial opacity)
  | other => other
  end.

Definition pulseAnimation (p : Pulse) (s : State) : State :=
  match markerRef s with
  | Some marker =>
      let scale := (1 + sin_scale p * 0.1)%float in
      let marker := Object3D.with_scale marker
                      (Vector3.set (Object3D.scale marker) scale scale scale) in
      let opacity := (0.5 + sin_opacity p * 0.2)%float in
      let marker := Object3D.with_children marker
                      (map (pulse_child opacity) (Object3D.children marker)) in
      with_markerRef s (Some marker)
  | None => s
  end.

Definition onXRFrame (time : float) (frame : XRFrame) (p : Pulse) (s : State)
  : State :=
  match hitTestSourceRef s, markerRef s, referenceSpaceRef s with
  | Some source, Some marker, Some space =>
      match getHitTestResults frame source with
      | hit :: _ =>
          match getPose hit space with
          | Some pose =>
              let marker := Object3D.with_visible marker true in
              let marker := Object3D.with_matrix marker
                              (Matrix4.fromArray (Object3D.matrix marker)
                                 (transform_matrix (transform pose))) in
              pulseAnimation p (with_markerRef s (Some marker))
          | None => s
          end
      | [] => with_markerRef s (Some (Object3D.with_visible marker false))
      end
  | _, _, _ => s
  end.

(** [renderer.render(scene, camera)], as far as the state goes: before
    drawing, three.js updates the matrices of the scene, so the matrix of
    the model and that of the marker are recomposed from their position,
    quaternion and scale.  A loaded model and the marker are in the scene. *)
Definition renderer_render (s : State) : State :=
  let s := with_modelRef s (option_map Object3D.updateMatrix (modelRef s)) in
  with_markerRef s (option_map Object3D.updateMatrix (markerRef s)).

(** The callback given to [renderer.setAnimationLoop].  Outside a session
    [frame] is undefined.  [controls.update()] moves the preview camera
    only, which is not part of the state. *)
Definition animationLoop (time : float) (frame : option XRFrame) (p : Pulse)
    (s : State) : State :=
  let s := match frame with
           | Some frame => onXRFrame time frame p s
           | None => s
           end in
  renderer_render s.

(** ** Computations that may throw *)

(** Code with [try] blocks is written in a state monad with exceptions: a
    computation takes a state and returns a value or a thrown error,
    together with the state it leaves. *)
Inductive Result (A : Type) :=
| Ok (a : A)
| Throw (err : string).
Arguments Ok {A} a.
Arguments Throw {A} err.

Definition M (S A : Type) : Type := S -> Result A * S.

Definition ret {S A} (a : A) : M S A := fun s => (Ok a, s).

Definition throw {S A} (err : string) : M S A := fun s => (Throw err, s).

Definition bind {S A B} (c : M S A) (k : A -> M S B) : M S B :=
  fun s =>
    match c s with
    | (Ok a, s') => k a s'
    | (Throw err, s') => (Throw err, s')
    end.

(** A statement that only changes the state. *)
Definition act {S} (f : S -> S) : M S unit := fun s => (Ok tt, f s).

(** [try { c } catch (err) { handler err }] *)
Definition try_catch {S A} (c : M S A) (handler : string -> M S A) : M S A :=
  fun s =>
    match c s with
    | (Ok a, s') => (Ok a, s')
    | (Throw err, s') => handler err s'
    end.

Notation "x <- c ;; k" := (bind c (fun x => k))
  (at level 100, c at next level, right associativity).
Notation "c ;;; k" := (bind c (fun _ => k))
  (at level 100, right associativity).

(** ** Starting a session *)

(** [startARSession] is an async function with two nested [try] blocks.
    Each [await] is settled by the platform description ([Navigator],
    [XRSession]) and recorded in [calls]; the function is run to its end in
    one step, as it reads no ref that another handler writes. *)

(** The preference order of the reference spaces. *)
Definition referenceSpaceTypes : list XRReferenceSpaceType :=
  [local_floor; bounded_floor; local; viewer].

(** The [for ... of] loop over the types: the first granted request ends it
    ([break]); a rejected one is caught, logged, and the loop goes on.  The
    result is [refSpace], [None] standing for [null]. *)
Fixpoint requestFirstSpace (session : XRSession)
    (types : list XRReferenceSpaceType) : M State (option XRReferenceSpace) :=
  match types with
  | [] => ret None
  | ty :: rest =>
      act (call (CallRequestReferenceSpace ty)) ;;;
      match requestReferenceSpace session ty with
      | Some space =>
          act (log ("Using reference space: " ++ type_name ty)) ;;;
          ret (Some space)
      | None =>
          act (log ("Reference space " ++ type_name ty ++ " not supported")) ;;;
          requestFirstSpace session rest
      end
  end.

(** The inner [try] block: the hit-test source request. *)
Definition requestHitTest (session : XRSession) (refSpace : XRReferenceSpace)
  : M State unit :=
  try_catch
    (match requestHitTestSource session with
     | Some request =>
         act (call (CallRequestHitTestSource refSpace)) ;;;
         match request refSpace with
         | Resolved (Some source) =>
             act (fun s => with_hitTestSourceRef s (Some source)) ;;;
             act (fun s => with_hitTestSourceRequestedRef s true)
         | Resolved None => ret tt
         | Rejected => throw "requestHitTestSource rejected"
         end
     | None => ret tt
     end)
    (fun _ =>
       act (log "Hit test source error:") ;;;
       act (setErrorMessage
              "Could not initialize hit testing. Some AR features may be limited.")).

(** The outer [try] block. *)
Definition startARSession_body (xrSystem : XRSystem) : M State unit :=
  try_catch
    (act (call CallRequestSession) ;;;
     session <- (match requestSession xrSystem with
                 | Some session => ret session
                 | None => throw "requestSession rejected"
                 end) ;;
     (fun s => if rendererRef s then act (call CallSetSession) s
               else ret tt s) ;;;
     refSpace <- requestFirstSpace session referenceSpaceTypes ;;
     match refSpace with
     | None => throw "No supported reference space found"
     | Some refSpace =>
         act (fun s => with_referenceSpaceRef s (Some refSpace)) ;;;
         requestHitTest session refSpace
     end)
    (fun _ =>
       act (log "Failed to start AR session:") ;;;
       act (setErrorMessage
              "Could not start AR session. Make sure your device supports WebXR.")).

Definition startARSession (navigator : Navigator) (s : State) : State :=
  match xr navigator with
  | None => setErrorMessage "WebXR not available." s
  | Some xrSystem => snd (startARSession_body xrSystem s)
  end.

(** ** Events *)

(** What can happen to a mounted component: a tap, the two session events,
    a turn of the animation loop, and a press on the start button. *)
Inductive Event :=
| EvSelect
| EvSessionStart
| EvSessionEnd
| EvFrame (time : float) (frame : option XRFrame) (p : Pulse)
| EvStartAR (navigator : Navigator).

Definition step (e : Event) (s : State) : State :=
  match e with
  | EvSelect => onSelect s
  | EvSessionStart => on_sessionstart s
  | EvSessionEnd => on_sessionend s
  | EvFrame time frame p => animationLoop time frame p s
  | EvStartAR navigator => startARSession navigator s
  end.

Definition run (evs : list Event) (s : State) : State :=
  fold_left (fun s e => step e s) evs s.

(** The reference-space requests among the platform calls, in order. *)
Definition spaceRequests (cs : list Call) : list XRReferenceSpaceType :=
  flat_map (fun c => match c with
                     | CallRequestReferenceSpace ty => [ty]
                     | _ => []
                     end) cs.

(** The hit-test source requests among the platform calls. *)
Definition hitTestRequests (cs : list Call) : list XRReferenceSpace :=
  flat_map (fun c => match c with
                     | CallRequestHitTestSource space => [space]
                     | _ => []
                     end) cs.

(** ** The certificate script *)

Module GenerateCert.

(** A path, as the list of its components below the root. *)
Definition Path : Type := list string.

(** [path.join(base, rel)]: the components of [rel] are appended and the
    result normalised, a [".."] removing the component before it. *)
Fixpoint path_join (base : Path) (rel : list string) : Path :=
  match rel with
  | [] => base
  | seg :: rest =>
      if String.eqb seg ".." then path_join (removelast base) rest
      else path_join (base ++ [seg])%list rest
  end.

(** The three [openssl] command lines the script runs. *)
Inductive Command :=
| genrsa (out : Path) (bits : nat)
| req (key out : Path) (subj : string)
| x509 (days : nat) (csr signkey out : Path).

(** The file a command names after [-out]. *)
Definition out_file (c : Command) : Path :=
  match c with
  | genrsa out _ => out
  | req _ out _ => out
  | x509 _ _ _ out => out
  end.

Inductive Effect :=
| Mkdir (dir : Path)
| Exec (c : Command)
| Unlink (file : Path).

(** The script's process: what it could read. It reads [__dirname] only. *)
Record Process := { argv : list string; dirname : Path }.

(** The file system, what the script did to it, and its console. *)
Record World := mkWorld {
  dirs : gset Path;
  files : gset Path;
  effects : list Effect;
  stdio : list string
}.

Definition existsSync (p : Path) (w : World) : bool :=
  bool_decide (p ∈ dirs w) || bool_decide (p ∈ files w).

(** [fs.mkdirSync(dir)]; the parent of the directory it is called on is
    the one that holds [scripts/]. *)
Definition mkdirSync (dir : Path) (w : World) : World :=
  mkWorld ({[ dir ]} ∪ dirs w) (files w) (effects w ++ [Mkdir dir]) (stdio w).

(** [execSync(command)]: [openssl] tells whether the tool exits with
    status zero, in which case it has written its [-out] file; otherwise
    [execSync] throws. *)
Definition execSync (openssl : Command -> bool) (c : Command)
  : M World unit :=
  fun w =>
    let w := mkWorld (dirs w) (files w) (effects w ++ [Exec c]) (stdio w) in
    if openssl c then
      (Ok tt, mkWorld (dirs w) ({[ out_file c ]} ∪ files w) (effects w)
                (stdio w))
    else (Throw "Command failed", w).

(** The world after a command has run and written its out-file. *)
Definition ran (c : Command) (w : World) : World :=
  mkWorld (dirs w) ({[ out_file c ]} ∪ files w) (effects w ++ [Exec c])
    (stdio w).

(** [fs.unlinkSync(file)] throws when the file is not there. *)
Definition unlinkSync (file : Path) : M World unit :=
  fun w =>
    if bool_decide (file ∈ files w) then
      (Ok tt, mkWorld (dirs w) (files w ∖ {[ file ]})
                (effects w ++ [Unlink file]) (stdio w))
    else (Throw "ENOENT", w).

Definition console_log (msg : string) (w : World) : World :=
  mkWorld (dirs w) (files w) (effects w) (stdio w ++ [msg]).

Definition certsDir (p : Process) : Path :=
  path_join (dirname p) [".."; "certs"].

(** The commands for a given output directory, in the order of the run. *)
Definition commands (dir : Path) : list Command :=
  [ genrsa (path_join dir ["key.pem"]) 2048;
    req (path_join dir ["key.pem"]) (path_join dir ["csr.pem"])
      "/CN=localhost";
    x509 365 (path_join dir ["csr.pem"]) (path_join dir ["key.pem"])
      (path_join dir ["cert.pem"]) ].

(** The body of the [try] block. *)
Definition generate (openssl : Command -> bool) (dir : Path)
  : M World unit :=
  execSync openssl (genrsa (path_join dir ["key.pem"]) 2048) ;;;
  execSync openssl
    (req (path_join dir ["key.pem"]) (path_join dir ["csr.pem"])
       "/CN=localhost") ;;;
  execSync openssl
    (x509 365 (path_join dir ["csr.pem"]) (path_join dir ["key.pem"])
       (path_join dir ["cert.pem"])) ;;;
  unlinkSync (path_join dir ["csr.pem"]) ;;;
  act (console_log "SSL certificates generated successfully!").

(** The whole script: the exit status and the world it leaves.  Running
    off the end of the script exits with 0; the [catch] block calls
    [process.exit(1)]. *)
Definition main (p : Process) (openssl : Command -> bool) (w : World)
  : nat * World :=
  let dir := certsDir p in
  let w := if existsSync dir w then w else mkdirSync dir w in
  match generate openssl dir w with
  | (Ok _, w') => (0, w')
  | (Throw _, w') => (1, console_log "Error generating certificates:" w')
  end.

(** A checkout with the script in [repo/scripts] and no [certs] yet. *)
Definition scriptProcess : Process :=
  {| argv := ["node"; "scripts/generate-cert.js"];
     dirname := ["repo"; "scripts"] |}.
Definition freshWorld : World :=
  mkWorld {[ ["repo"]; ["repo"; "scripts"] ]} ∅ [] [].

(** An [openssl] that works, and one that fails to write the request. *)
Definition toolWorks : Command -> bool := fun _ => true.
Definition toolFailsAtRequest : Command -> bool :=
  fun c => match c with
           | req _ _ _ => false
           | _ => true
           end.

End GenerateCert.

(** ** Sample platforms and states *)

Definition floorSpace : XRReferenceSpace := {| space_type := local_floor |}.
Definition viewerSpace : XRReferenceSpace := {| space_type := viewer |}.

(** A platform that grants every reference space and hit testing. *)
Definition arSession : XRSession :=
  {| requestReferenceSpace := fun ty => Some {| space_type := ty |};
     requestHitTestSource :=
       Some (fun space => Resolved (Some {| source_space := space |})) |}.
Definition arNavigator : Navigator :=
  {| xr := Some {| requestSession := Some arSession |} |}.

(** A platform that grants the viewer space only. *)
Definition viewerOnlySession : XRSession :=
  {| requestReferenceSpace :=
       fun ty => match ty with
                 | viewer => Some viewerSpace
                 | _ => None
                 end;
     requestHitTestSource :=
       Some (fun space => Resolved (Some {| source_space := space |})) |}.
Definition viewerOnlyNavigator : Navigator :=
  {| xr := Some {| requestSession := Some viewerOnlySession |} |}.

(** A platform that grants no reference space at all. *)
Definition noSpaceSession : XRSession :=
  {| requestReferenceSpace := fun _ => None;
     requestHitTestSource :=
       Some (fun space => Resolved (Some {| source_space := space |})) |}.
Definition noSpaceNavigator : Navigator :=
  {| xr := Some {| requestSession := Some noSpaceSession |} |}.

(** A surface hit one unit right, two up and three back of the origin,
    turned half a turn about the vertical axis. *)
Definition surfaceTransform : XRRigidTransform :=
  {| transform_position := Vector3.mk 1 2 3;
     transform_orientation := Quaternion.mk 0 1 0 0;
     transform_matrix :=
       [-1; 0; 0; 0;  0; 1; 0; 0;  0; 0; -1; 0;  1; 2; 3; 1]%float |}.
Definition surfaceHit : XRHitTestResult :=
  {| getPose := fun _ => Some {| transform := surfaceTransform |} |}.
Definition surfaceFrame : XRFrame :=
  {| getHitTestResults := fun _ => [surfaceHit] |}.
Definition emptyFrame : XRFrame := {| getHitTestResults := fun _ => [] |}.
Definition stillPulse : Pulse := {| sin_scale := 0; sin_opacity := 0 |}.

(** The component with its model loaded (a model centred on its origin). *)
Definition loaded : State := onLoad Object3D.create Vector3.zero mount.

(** ... then taken into a session on [arNavigator]. *)
Definition tracking : State := run [EvStartAR arNavigator; EvSessionStart] loaded.

(** ... then shown a frame that hits the surface. *)
Definition aiming : State :=
  step (EvFrame 0 (Some surfaceFrame) stillPulse) tracking.

(** The model's placement: its position and orientation, when loaded. *)
Definition placement (s : State) : option (Vector3.t * Quaternion.t) :=
  match modelRef s with
  | Some model => Some (Object3D.position model, Object3D.quaternion model)
  | None => None
  end.

(** Whether a loaded model is hidden. *)
Definition model_hidden (s : State) : bool :=
  match modelRef s with
  | Some model => negb (Object3D.visible model)
  | None => false
  end.

(** An event that cannot reveal the model in state [s]: anything but the end
    of the session and a select while the marker shows. *)
Definition keeps_hidden (e : Event) (s : State) : bool :=
  match e with
  | EvSelect => negb (marker_visible s)
  | EvSessionEnd => false
  | _ => true
  end.

Fixpoint quiet (evs : list Event) (s : State) : bool :=
  match evs with
  | [] => true
  | e :: rest => keeps_hidden e s && quiet rest (step e s)
  end.

(** A computation that leaves a view [P] of the state as it found it. *)
Definition preserves {S A T} (P : S -> T) (c : M S A) : Prop :=
  forall s, P (snd (c s)) = P s.

(** The scene objects of a state. *)
Definition scene (s : State) : option Object3D.t * option Object3D.t :=
  (modelRef s, markerRef s).

(** Where the marker object itself says it is: its [position] and
    [quaternion] fields. *)
Definition marker_pose (s : State) : option (Vector3.t * Quaternion.t) :=
  match markerRef s with
  | Some marker => Some (Object3D.position marker, Object3D.quaternion marker)
  | None => None
  end.

(** The model once a select has placed it while aiming at the surface. *)
Definition placed : State := onSelect aiming.

(** The model as a session finds it once started, and the model and the
    marker after the frame that hits the surface. *)
Definition trackingModel : Object3D.t :=
  Eval vm_compute in
    match modelRef tracking with
    | Some model => model
    | None => Object3D.create
    end.
Definition aimingModel : Object3D.t :=
  Eval vm_compute in
    match modelRef aiming with
    | Some model => model
    | None => Object3D.create
    end.
Definition aimingMarker : Object3D.t :=
  Eval vm_compute in
    match markerRef aiming with
    | Some marker => marker
    | None => Object3D.create
    end.

(** The refs and the message that [startARSession] may write. *)
Definition session_refs (s : State)
  : option XRHitTestSource * bool * option XRReferenceSpace * string :=
  (hitTestSourceRef s, hitTestSourceRequestedRef s, referenceSpaceRef s,
   errorMessage s).

(** The state in which the loop over the reference-space types starts:
    the session has been requested and, with a renderer, handed to it. *)
Definition negotiating (s : State) : State :=
  if rendererRef s then call CallSetSession (call CallRequestSession s)
  else call CallRequestSession s.

(** ** The rendered controls *)

(** The component's React state: [isARSupported] beside what [State]
    holds. *)
Record Component := mkComponent { isARSupported : bool; refs : State }.

(** How the support check of the effect turns out: [navigator] has no [xr]
    property; it has one that is undefined, so that the optional chain
    yields undefined and neither callback is registered;
    [isSessionSupported('immersive-ar')] resolves; or it rejects. *)
Inductive SupportProbe :=
| NoXRProperty
| XRUndefined
| SupportResolved (supported : bool)
| SupportRejected.

(** The support check at the head of the effect, with its [then] and
    [catch] callbacks run. *)
Definition checkSupport (probe : SupportProbe) (c : Component) : Component :=
  match probe with
  | NoXRProperty =>
      mkComponent (isARSupported c)
        (setErrorMessage
           "WebXR is not supported in your browser. Please try Chrome on Android or Safari on iOS."
           (refs c))
  | XRUndefined => c
  | SupportResolved supported =>
      if supported then mkComponent supported (refs c)
      else
        mkComponent supported
          (setErrorMessage
             "AR is not supported on your device. Please try on a mobile device with AR support."
             (refs c))
  | SupportRejected =>
      mkComponent (isARSupported c)
        (setErrorMessage
           "Error checking AR support. Please try on a different device or browser."
           (log "Error checking AR support:" (refs c)))
  end.

(** An event of the mounted component, on the whole React state. *)
Definition component_step (e : Event) (c : Component) : Component :=
  mkComponent (isARSupported c) (step e (refs c)).

Definition component_run (evs : list Event) (c : Component) : Component :=
  mkComponent (isARSupported c) (run evs (refs c)).

(** What the start button calls when pressed. *)
Inductive ClickHandler := ClickStartAR | ClickStopAR.

Record ButtonView := {
  onClick : ClickHandler;
  variant : string;
  label : string
}.

(** The two conditional parts of the JSX the component returns: the button
    (under [isARSupported &&]) and the message box (under
    [errorMessage &&], an empty string being falsy). *)
Record View := { startButton : option ButtonView; errorBox : option string }.

Definition render (c : Component) : View :=
  {| startButton :=
       if isARSupported c then
         Some {| onClick := if isARSessionActive (refs c) then ClickStopAR
                            else ClickStartAR;
                 variant := if isARSessionActive (refs c) then "destructive"
                            else "default";
                 label := if isARSessionActive (refs c) then "Stop AR"
                          else "Start AR" |}
       else None;
     errorBox :=
       if String.eqb (errorMessage (refs c)) "" then None
       else Some (errorMessage (refs c)) |}.

(** The component as first rendered: nothing known about AR support yet. *)
Definition mounted : Component := mkComponent false mount.

(** Whether an event is one of the two session events. *)
Definition is_session_event (e : Event) : bool :=
  match e with
  | EvSessionStart | EvSessionEnd => true
  | _ => false
  end.

(** Whether an event is a press on the start button. *)
Definition is_start (e : Event) : bool :=
  match e with
  | EvStartAR _ => true
  | _ => false
  end.

(** A property of the state that a computation keeps once it holds. *)
Definition stable {S A} (Q : S -> Prop) (c : M S A) : Prop :=
  forall s, Q s -> Q (snd (c s)).

(** The scale of the model, when loaded. *)
Definition model_scale (s : State) : option Vector3.t :=
  match modelRef s with
  | Some model => Some (Object3D.scale model)
  | None => None
  end.

(** A platform that grants every reference space but rejects the request
    for a hit-test source. *)
Definition noHitTestSession : XRSession :=
  {| requestReferenceSpace := fun ty => Some {| space_type := ty |};
     requestHitTestSource := Some (fun _ => Rejected) |}.
Definition noHitTestNavigator : Navigator :=
  {| xr := Some {| requestSession := Some noHitTestSession |} |}.

(** ** Worlds of the certificate script *)

(** The world after a command was started and failed: it is on record and
    has written nothing. *)
Definition tried (c : GenerateCert.Command) (w : GenerateCert.World)
  : GenerateCert.World :=
  GenerateCert.mkWorld (GenerateCert.dirs w) (GenerateCert.files w)
    (GenerateCert.effects w ++ [GenerateCert.Exec c]) (GenerateCert.stdio w).

(** The world after a file was removed. *)
Definition unlinked (file : GenerateCert.Path) (w : GenerateCert.World)
  : GenerateCert.World :=
  GenerateCert.mkWorld (GenerateCert.dirs w)
    (GenerateCert.files w ∖ {[ file ]})
    (GenerateCert.effects w ++ [GenerateCert.Unlink file])
    (GenerateCert.stdio w).

(** The world in which the [try] block starts: the output directory is
    there. *)
Definition prepared (p : GenerateCert.Process) (w : GenerateCert.World)
  : GenerateCert.World :=
  if GenerateCert.existsSync (GenerateCert.certsDir p) w then w
  else GenerateCert.mkdirSync (GenerateCert.certsDir p) w.

(** An [openssl] that fails to sign the certificate. *)
Definition toolFailsAtCertificate : GenerateCert.Command -> bool :=
  fun c => match c with
           | GenerateCert.x509 _ _ _ _ => false
           | _ => true
           end.

(** ** The page *)

Module Home.

(** The [onClick] of the camera button: [setIsCameraFlipped(!isCameraFlipped)]. *)
Definition toggle (isCameraFlipped : bool) : bool := negb isCameraFlipped.

(** The text of the camera button. *)
Definition label (isCameraFlipped : bool) : string :=
  if isCameraFlipped then "Front Camera" else "Back Camera".

(** The flag after [n] presses, from the initial [useState(false)]. *)
Fixpoint presses (n : nat) : bool :=
  match n with
  | 0 => false
  | S n => toggle (presses n)
  end.

End Home.

(** ** Facts about the three.js values *)

Lemma fromArray_nth (d : float) (l : list float) :
  map (fun i => nth i l d) (seq 0 (length l)) = l.
Proof.
  induction l as [|a l IH]; [reflexivity|].
  cbn [length seq map nth]. f_equal.
  rewrite <- seq_shift, map_map. exact IH.
Qed.

Lemma fromArray_full (m : Matrix4.t) (array : list float) :
  length array = 16 ->
  Matrix4.elements (Matrix4.fromArray m array) = array.
Proof.
  intros Hlen. unfold Matrix4.fromArray. cbn [Matrix4.elements].
  rewrite <- Hlen. apply fromArray_nth.
Qed.

Lemma zero_rotation_identity :
  Quaternion.of_zero_rotation = Quaternion.identity.
Proof. vm_compute. reflexivity. Qed.

(** ** The frame handler *)

Lemma pulseAnimation_marker (p : Pulse) (s : State) (marker : Object3D.t) :
  markerRef s = Some marker ->
  exists marker',
    markerRef (pulseAnimation p s) = Some marker'
    /\ Object3D.visible marker' = Object3D.visible marker
    /\ Object3D.matrix marker' = Object3D.matrix marker
    /\ Object3D.position marker' = Object3D.position marker
    /\ Object3D.quaternion marker' = Object3D.quaternion marker.
Proof.
  intros Hm. unfold pulseAnimation. rewrite Hm.
  eexists. split; [reflexivity|]. repeat split.
Qed.

(** What [onXRFrame] itself leaves when it returns: in a frame where
    hit-test source, marker and reference space are all set and the first
    hit-test result has a pose, the marker is visible and its matrix holds
    the sixteen elements of that pose.  The render pass of the same frame
    callback comes after this. *)
Theorem onXRFrame_hit_sets_marker
    (time : float) (frame : XRFrame) (p : Pulse) (s : State)
    (source : XRHitTestSource) (marker : Object3D.t) (space : XRReferenceSpace)
    (hit : XRHitTestResult) (rest : list XRHitTestResult) (pose : XRPose) :
  hitTestSourceRef s = Some source ->
  markerRef s = Some marker ->
  referenceSpaceRef s = Some space ->
  getHitTestResults frame source = hit :: rest ->
  getPose hit space = Some pose ->
  length (transform_matrix (transform pose)) = 16 ->
  exists marker',
    markerRef (onXRFrame time frame p s) = Some marker'
    /\ Object3D.visible marker' = true
    /\ Matrix4.elements (Object3D.matrix marker')
       = transform_matrix (transform pose).
Proof.
  intros Hsrc Hmk Hsp Hhits Hpose Hlen.
  unfold onXRFrame. rewrite Hsrc, Hmk, Hsp, Hhits, Hpose.
  match goal with
  | |- context [pulseAnimation p ?s1] =>
      destruct (pulseAnimation_marker p s1 _ eq_refl)
        as (marker' & Hm' & Hvis & Hmat & _)
  end.
  exists marker'. split; [exact Hm'|]. split.
  - rewrite Hvis. reflexivity.
  - rewrite Hmat. cbn [Object3D.matrix Object3D.with_matrix].
    apply fromArray_full, Hlen.
Qed.

(** The frame [surfaceFrame] seen while tracking. *)
Lemma onXRFrame_hit_sets_marker_witness :
  exists marker',
    markerRef (onXRFrame 0 surfaceFrame stillPulse tracking) = Some marker'
    /\ Object3D.visible marker' = true
    /\ Matrix4.elements (Object3D.matrix marker')
       = transform_matrix surfaceTransform.
Proof.
  apply (onXRFrame_hit_sets_marker 0 surfaceFrame stillPulse tracking
           {| source_space := floorSpace |} markerGroup floorSpace
           surfaceHit [] {| transform := surfaceTransform |});
    reflexivity.
Defined.



(** ** Selection *)

Lemma onSelect_places (s : State) (model marker : Object3D.t) :
  modelRef s = Some model ->
  markerRef s = Some marker ->
  Object3D.visible marker = true ->
  exists model',
    modelRef (onSelect s) = Some model'
    /\ Object3D.position model'
       = Vector3.add_y (Object3D.position marker) 0.05
    /\ Object3D.quaternion model' = Object3D.quaternion marker
    /\ Object3D.visible model' = true
    /\ Object3D.scale model' = Object3D.scale model.
Proof.
  intros Hmodel Hmarker Hvis. unfold onSelect.
  cbn [log modelRef markerRef]. rewrite Hmodel, Hmarker, Hvis.
  eexists. split; [reflexivity|].
  destruct marker as [[px py pz] [qx qy qz qw] sc mat vis ch].
  repeat split.
Qed.

Lemma onSelect_skips (s : State) :
  modelRef s = None \/ marker_visible s = false ->
  onSelect s = log "Cannot place model:" (log "Selection event triggered" s).
Proof.
  intros H. unfold onSelect, marker_visible in *.
  cbn [log modelRef markerRef].
  destruct (modelRef s) as [model|], (markerRef s) as [marker|];
    try reflexivity.
  destruct H as [H|H]; [discriminate H|]. rewrite H. reflexivity.
Qed.

(** C6. A select event that finds the marker hidden or missing, or no model
    loaded, writes two lines to the console and nothing else: the model
    (position, orientation, scale, visibility) and the marker are as
    before. *)
Theorem onSelect_noop_when_hidden (s : State) :
  modelRef s = None \/ marker_visible s = false ->
  onSelect s = log "Cannot place model:" (log "Selection event triggered" s)
  /\ modelRef (onSelect s) = modelRef s
  /\ markerRef (onSelect s) = markerRef s.
Proof.
  intros H. rewrite (onSelect_skips s H). repeat split.
Qed.

(** A tap before any surface was hit. *)
Lemma onSelect_noop_when_hidden_witness :
  modelRef (onSelect tracking) = modelRef tracking.
Proof.
  refine (proj1 (proj2 (onSelect_noop_when_hidden tracking _))).
  right. reflexivity.
Defined.

(** ** Session events *)

(** C7. When a session ends with a model loaded, the listener leaves the
    model visible at position (0, 0, -0.5) with zero rotation (the identity
    quaternion), and the marker hidden. *)
Theorem sessionend_resets_model (s : State) (model : Object3D.t) :
  modelRef s = Some model ->
  exists model',
    modelRef (on_sessionend s) = Some model'
    /\ Object3D.visible model' = true
    /\ Object3D.position model' = Vector3.mk 0 0 (-0.5)
    /\ Object3D.quaternion model' = Quaternion.identity
    /\ marker_visible (on_sessionend s) = false.
Proof.
  intros Hmodel. unfold on_sessionend, marker_visible.
  cbn [log setIsARSessionActive modelRef markerRef]. rewrite Hmodel.
  cbn [log setIsARSessionActive with_modelRef modelRef markerRef].
  destruct (markerRef s) as [marker|] eqn:Hmarker;
    cbn [with_markerRef with_modelRef modelRef markerRef];
    (eexists; split; [reflexivity|]);
    cbn; rewrite ?Hmarker, zero_rotation_identity; repeat split.
Qed.

(** The session ends while the marker shows. *)
Lemma sessionend_resets_model_witness :
  exists model',
    modelRef (on_sessionend aiming) = Some model'
    /\ Object3D.visible model' = true
    /\ Object3D.position model' = Vector3.mk 0 0 (-0.5)
    /\ Object3D.quaternion model' = Quaternion.identity
    /\ marker_visible (on_sessionend aiming) = false.
Proof.
  refine (sessionend_resets_model aiming _ eq_refl).
Defined.

Lemma sessionstart_hides_model (s : State) (model : Object3D.t) :
  modelRef s = Some model ->
  exists model',
    modelRef (on_sessionstart s) = Some model'
    /\ Object3D.visible model' = false
    /\ Object3D.position model' = Vector3.mk 0 0 (-0.5).
Proof.
  intros Hmodel. unfold on_sessionstart.
  cbn [log setIsARSessionActive with_hitTestSourceRequestedRef modelRef].
  rewrite Hmodel. eexists. repeat split.
Qed.

(** ** What a computation leaves alone *)

Section Preserves.
Context {S T : Type} (P : S -> T).

Lemma preserves_ret {A} (a : A) : preserves P (ret a).
Proof. intros s. reflexivity. Qed.

Lemma preserves_throw {A} (err : string) : preserves P (@throw S A err).
Proof. intros s. reflexivity. Qed.

Lemma preserves_act (f : S -> S) :
  (forall s, P (f s) = P s) -> preserves P (act f).
Proof. intros Hf s. apply Hf. Qed.

Lemma preserves_bind {A B} (c : M S A) (k : A -> M S B) :
  preserves P c -> (forall a, preserves P (k a)) -> preserves P (bind c k).
Proof.
  intros Hc Hk s. unfold bind. specialize (Hc s).
  destruct (c s) as [[a|err] s']; cbn [snd] in *.
  - rewrite Hk. exact Hc.
  - exact Hc.
Qed.

Lemma preserves_try_catch {A} (c : M S A) (handler : string -> M S A) :
  preserves P c -> (forall err, preserves P (handler err)) ->
  preserves P (try_catch c handler).
Proof.
  intros Hc Hh s. unfold try_catch. specialize (Hc s).
  destruct (c s) as [[a|err] s']; cbn [snd] in *.
  - exact Hc.
  - rewrite Hh. exact Hc.
Qed.
End Preserves.

Create HintDb frame.
#[local] Hint Resolve preserves_ret preserves_throw preserves_bind
  preserves_try_catch : frame.

Ltac frame_act := apply preserves_act; intros ?; reflexivity.
#[local] Hint Extern 1 (preserves _ (act _)) => frame_act : frame.

Lemma requestFirstSpace_scene (session : XRSession)
    (types : list XRReferenceSpaceType) :
  preserves scene (requestFirstSpace session types).
Proof.
  induction types as [|ty rest IH]; cbn [requestFirstSpace]; auto with frame.
  apply preserves_bind; [frame_act|]. intros _.
  destruct (requestReferenceSpace session ty); auto with frame.
Qed.

Lemma requestHitTest_scene (session : XRSession) (space : XRReferenceSpace) :
  preserves scene (requestHitTest session space).
Proof.
  unfold requestHitTest. apply preserves_try_catch; [|auto with frame].
  destruct (requestHitTestSource session) as [request|]; auto with frame.
  apply preserves_bind; [frame_act|]. intros _.
  destruct (request space) as [[source|]|]; auto with frame.
Qed.

Lemma startARSession_scene (navigator : Navigator) (s : State) :
  scene (startARSession navigator s) = scene s.
Proof.
  unfold startARSession. destruct (xr navigator) as [xrSystem|];
    [|reflexivity].
  revert s. change (preserves scene (startARSession_body xrSystem)).
  unfold startARSession_body.
  apply preserves_try_catch; [|auto with frame].
  apply preserves_bind; [frame_act|]. intros _.
  apply preserves_bind.
  { destruct (requestSession xrSystem); auto with frame. }
  intros session. apply preserves_bind.
  { intros s. destruct (rendererRef s); reflexivity. }
  intros _. apply preserves_bind; [apply requestFirstSpace_scene|].
  intros [space|]; auto with frame.
  apply preserves_bind; [frame_act|]. intros _. apply requestHitTest_scene.
Qed.

Lemma with_markerRef_same (s : State) :
  with_markerRef s (markerRef s) = s.
Proof. destruct s. reflexivity. Qed.

Lemma with_markerRef_twice (s : State) (a b : option Object3D.t) :
  with_markerRef (with_markerRef s a) b = with_markerRef s b.
Proof. reflexivity. Qed.

(** [onXRFrame] writes the marker only, and of the marker neither the
    position nor the quaternion. *)
Lemma onXRFrame_writes_marker (time : float) (frame : XRFrame) (p : Pulse)
    (s : State) :
  exists m,
    onXRFrame time frame p s = with_markerRef s m
    /\ marker_pose (with_markerRef s m) = marker_pose s.
Proof.
  unfold onXRFrame.
  destruct (hitTestSourceRef s) as [source|];
    [|exists (markerRef s); rewrite with_markerRef_same; split; reflexivity].
  destruct (markerRef s) as [marker|] eqn:Hmarker;
    [|exists (markerRef s); rewrite with_markerRef_same; split; reflexivity].
  destruct (referenceSpaceRef s) as [space|];
    [|exists (markerRef s); rewrite with_markerRef_same; split; reflexivity].
  destruct (getHitTestResults frame source) as [|hit rest].
  - eexists. split; [reflexivity|]. unfold marker_pose.
    cbn [with_markerRef markerRef]. rewrite Hmarker. reflexivity.
  - destruct (getPose hit space) as [pose|];
      [|exists (markerRef s); rewrite with_markerRef_same; split; reflexivity].
    unfold pulseAnimation. cbn [with_markerRef markerRef].
    eexists. split; [reflexivity|]. unfold marker_pose.
    cbn [with_markerRef markerRef]. rewrite Hmarker. reflexivity.
Qed.

(** The state the frame callback hands to [renderer.render]. *)
Lemma animationLoop_render (time : float) (frame : option XRFrame) (p : Pulse)
    (s : State) :
  exists m,
    animationLoop time frame p s = renderer_render (with_markerRef s m)
    /\ marker_pose (with_markerRef s m) = marker_pose s.
Proof.
  unfold animationLoop. destruct frame as [frame|].
  - destruct (onXRFrame_writes_marker time frame p s) as (m & -> & Hpose).
    exists m. split; [reflexivity|exact Hpose].
  - exists (markerRef s). rewrite with_markerRef_same. split; reflexivity.
Qed.

Lemma animationLoop_model (time : float) (frame : option XRFrame) (p : Pulse)
    (s : State) :
  modelRef (animationLoop time frame p s)
  = option_map Object3D.updateMatrix (modelRef s).
Proof.
  destruct (animationLoop_render time frame p s) as (m & -> & _).
  reflexivity.
Qed.

Lemma animationLoop_refs (time : float) (frame : option XRFrame) (p : Pulse)
    (s : State) :
  hitTestSourceRef (animationLoop time frame p s) = hitTestSourceRef s
  /\ referenceSpaceRef (animationLoop time frame p s) = referenceSpaceRef s
  /\ errorMessage (animationLoop time frame p s) = errorMessage s
  /\ isARSessionActive (animationLoop time frame p s) = isARSessionActive s
  /\ rendererRef (animationLoop time frame p s) = rendererRef s.
Proof.
  destruct (animationLoop_render time frame p s) as (m & -> & _).
  repeat split.
Qed.

Lemma renderer_render_marker (s : State) :
  marker_pose (renderer_render s) = marker_pose s
  /\ marker_visible (renderer_render s) = marker_visible s.
Proof.
  unfold marker_pose, marker_visible, renderer_render.
  cbn [with_markerRef with_modelRef markerRef].
  destruct (markerRef s); split; reflexivity.
Qed.

Lemma animationLoop_marker_pose (time : float) (frame : option XRFrame)
    (p : Pulse) (s : State) :
  marker_pose (animationLoop time frame p s) = marker_pose s.
Proof.
  destruct (animationLoop_render time frame p s) as (m & -> & Hpose).
  rewrite (proj1 (renderer_render_marker _)). exact Hpose.
Qed.

(** No handler ever writes the marker's [position] or [quaternion]. *)
Lemma step_marker_pose (e : Event) (s : State) :
  marker_pose (step e s) = marker_pose s.
Proof.
  destruct e as [| | |time frame p|navigator]; cbn [step].
  - unfold marker_pose, onSelect. cbn [log modelRef markerRef].
    destruct (modelRef s), (markerRef s) as [marker|] eqn:Hmarker;
      try destruct (Object3D.visible marker);
      cbn; rewrite ?Hmarker; reflexivity.
  - unfold marker_pose, on_sessionstart.
    cbn [log setIsARSessionActive with_hitTestSourceRequestedRef modelRef].
    destruct (modelRef s); reflexivity.
  - unfold marker_pose, on_sessionend.
    cbn [log setIsARSessionActive modelRef markerRef].
    destruct (modelRef s);
      cbn [log setIsARSessionActive with_modelRef modelRef markerRef];
      destruct (markerRef s) eqn:Hmarker; cbn; rewrite ?Hmarker; reflexivity.
  - apply animationLoop_marker_pose.
  - unfold marker_pose.
    pose proof (startARSession_scene navigator s) as H.
    unfold scene in H. injection H as _ H. rewrite H. reflexivity.
Qed.

Lemma run_marker_pose (evs : list Event) (s : State) :
  marker_pose (run evs s) = marker_pose s.
Proof.
  revert s. induction evs as [|e evs IH]; intros s; [reflexivity|].
  cbn [run fold_left]. change (marker_pose (run evs (step e s)) = marker_pose s).
  rewrite IH. apply step_marker_pose.
Qed.

(** In every state the mounted component can reach, a select that places the
    model puts it at (0, 0 + 0.05, 0) with the identity orientation, whatever
    the hit-test poses of the frames before it were. *)
Lemma reachable_select_places_at_origin
    (gltf : Object3D.t) (center : Vector3.t) (evs : list Event)
    (model : Object3D.t) :
  let s := run evs (onLoad gltf center mount) in
  modelRef s = Some model ->
  marker_visible s = true ->
  placement (onSelect s)
  = Some (Vector3.mk 0 (0 + 0.05)%float 0, Quaternion.identity).
Proof.
  intros s Hmodel Hvis.
  pose proof (run_marker_pose evs (onLoad gltf center mount)) as Hpose.
  fold s in Hpose. unfold marker_pose, marker_visible in *.
  destruct (markerRef s) as [marker|] eqn:Hmarker; [|discriminate Hvis].
  cbn in Hpose. injection Hpose as Hpos Hquat.
  destruct (onSelect_places s model marker Hmodel Hmarker Hvis)
    as (model' & Hm' & Hp & Hq & _).
  unfold placement. rewrite Hm', Hp, Hq, Hpos, Hquat. reflexivity.
Qed.

(** C1. A select that finds a model loaded and the marker visible puts the
    model where the marker is: at the marker's position raised by 0.05 on
    the y axis, with the marker's orientation, and visible. *)
Theorem onSelect_places_at_marker (s : State) (model marker : Object3D.t) :
  modelRef s = Some model ->
  markerRef s = Some marker ->
  Object3D.visible marker = true ->
  exists model',
    modelRef (onSelect s) = Some model'
    /\ Object3D.position model'
       = Vector3.mk (Vector3.x (Object3D.position marker))
           (Vector3.y (Object3D.position marker) + 0.05)%float
           (Vector3.z (Object3D.position marker))
    /\ Object3D.quaternion model' = Object3D.quaternion marker
    /\ Object3D.visible model' = true.
Proof.
  intros Hmodel Hmarker Hvis.
  destruct (onSelect_places s model marker Hmodel Hmarker Hvis)
    as (model' & Hm' & Hp & Hq & Hv & _).
  exists model'. repeat split; assumption.
Qed.

(** A tap after the frame that hit the surface. *)
Lemma onSelect_places_at_marker_witness :
  exists model',
    modelRef (onSelect aiming) = Some model'
    /\ Object3D.position model'
       = Vector3.mk (Vector3.x (Object3D.position aimingMarker))
           (Vector3.y (Object3D.position aimingMarker) + 0.05)%float
           (Vector3.z (Object3D.position aimingMarker))
    /\ Object3D.quaternion model' = Object3D.quaternion aimingMarker
    /\ Object3D.visible model' = true.
Proof.
  apply (onSelect_places_at_marker aiming aimingModel aimingMarker);
    vm_compute; reflexivity.
Defined.

(** ** The hit pose and the render pass *)

(** After every turn of the frame callback the marker's matrix is the one
    composed from its position, quaternion and scale, whatever pose
    [onXRFrame] had written into it. *)
Lemma animationLoop_marker_matrix (time : float) (frame : option XRFrame)
    (p : Pulse) (s : State) (marker : Object3D.t) :
  markerRef (animationLoop time frame p s) = Some marker ->
  Object3D.matrix marker
  = Matrix4.compose (Object3D.matrix marker) (Object3D.position marker)
      (Object3D.quaternion marker) (Object3D.scale marker).
Proof.
  destruct (animationLoop_render time frame p s) as (m & -> & _).
  unfold renderer_render. cbn [with_markerRef with_modelRef markerRef].
  destruct m as [marker0|]; cbn [option_map]; [|discriminate].
  intros [= <-]. reflexivity.
Qed.

(** C4. The frame callback writes the pose of the first hit-test result
    into the marker's matrix and then, in the same turn, calls
    [renderer.render], which recomposes that matrix from the marker's
    position, quaternion and scale.  After the frame that hits the surface
    at [surfaceTransform] the marker is visible, but its matrix is the
    identity, not the matrix of the pose. *)
Theorem animationLoop_loses_hit_pose :
  getHitTestResults surfaceFrame {| source_space := floorSpace |} = [surfaceHit]
  /\ getPose surfaceHit floorSpace = Some {| transform := surfaceTransform |}
  /\ marker_visible (animationLoop 0 (Some surfaceFrame) stillPulse tracking)
     = true
  /\ option_map (fun marker => Matrix4.elements (Object3D.matrix marker))
       (markerRef (animationLoop 0 (Some surfaceFrame) stillPulse tracking))
     = Some (Matrix4.elements Matrix4.identity)
  /\ option_map (fun marker => Matrix4.elements (Object3D.matrix marker))
       (markerRef (animationLoop 0 (Some surfaceFrame) stillPulse tracking))
     <> Some (transform_matrix surfaceTransform).
Proof.
  repeat split; try (vm_compute; reflexivity).
  vm_compute. intros H. discriminate H.
Qed.

(** ** Who moves the model *)

(** The session-end listener moves a model that a select had placed. *)
Lemma sessionend_moves_model :
  placement (step EvSessionEnd placed) <> placement placed
  /\ EvSessionEnd <> EvSelect.
Proof.
  split; [|discriminate].
  vm_compute. intros H. discriminate H.
Qed.

(** C8. The model's position and orientation change only in a select, a
    session-start or a session-end event: a turn of the frame loop or a
    press on the start button leaves them as they are. *)
Theorem placement_changes_only_on_select_or_session (e : Event) (s : State) :
  placement (step e s) <> placement s ->
  e = EvSelect \/ e = EvSessionStart \/ e = EvSessionEnd.
Proof.
  intros Hchange.
  destruct e as [| | |time frame p|navigator]; auto; exfalso; apply Hchange;
    unfold placement; cbn [step].
  - rewrite animationLoop_model. destruct (modelRef s); reflexivity.
  - pose proof (startARSession_scene navigator s) as H.
    unfold scene in H. injection H as H _. rewrite H. reflexivity.
Qed.

(** The end of a session is one of the three events that move the model. *)
Lemma placement_changes_only_on_select_or_session_witness :
  EvSessionEnd = EvSelect \/ EvSessionEnd = EvSessionStart
  \/ EvSessionEnd = EvSessionEnd.
Proof.
  apply (placement_changes_only_on_select_or_session EvSessionEnd placed).
  vm_compute. intros H. discriminate H.
Defined.

(** ** The model stays hidden in a session until it is placed *)

Lemma step_keeps_hidden (e : Event) (s : State) :
  model_hidden s = true ->
  keeps_hidden e s = true ->
  model_hidden (step e s) = true.
Proof.
  intros Hhid Hkeep. unfold model_hidden in *.
  destruct (modelRef s) as [model|] eqn:Hmodel; [|discriminate Hhid].
  destruct e as [| | |time frame p|navigator]; cbn [step keeps_hidden] in *.
  - rewrite onSelect_skips
      by (right; destruct (marker_visible s); [discriminate Hkeep|reflexivity]).
    cbn [log modelRef]. rewrite Hmodel. exact Hhid.
  - destruct (sessionstart_hides_model s model Hmodel) as (m' & Hm' & Hv & _).
    rewrite Hm', Hv. reflexivity.
  - discriminate Hkeep.
  - rewrite animationLoop_model, Hmodel. exact Hhid.
  - pose proof (startARSession_scene navigator s) as H.
    unfold scene in H. injection H as H _. rewrite H, Hmodel. exact Hhid.
Qed.

Lemma run_keeps_hidden (evs : list Event) (s : State) :
  model_hidden s = true ->
  quiet evs s = true ->
  model_hidden (run evs s) = true.
Proof.
  revert s. induction evs as [|e evs IH]; intros s Hhid Hquiet;
    [exact Hhid|].
  cbn [quiet] in Hquiet. apply andb_prop in Hquiet as [Hkeep Hquiet].
  cbn [run fold_left]. apply IH; [apply step_keeps_hidden; assumption|].
  exact Hquiet.
Qed.

(** C10. When a session starts with a model loaded, the listener hides the
    model and puts it at (0, 0, -0.5); the model then stays hidden through
    every run of events of the session in which no select finds the marker
    showing. *)
Theorem sessionstart_hides_until_placed
    (s : State) (model : Object3D.t) (evs : list Event) :
  modelRef s = Some model ->
  quiet evs (on_sessionstart s) = true ->
  (exists model',
      modelRef (on_sessionstart s) = Some model'
      /\ Object3D.visible model' = false
      /\ Object3D.position model' = Vector3.mk 0 0 (-0.5))
  /\ model_hidden (run evs (on_sessionstart s)) = true.
Proof.
  intros Hmodel Hquiet.
  pose proof (sessionstart_hides_model s model Hmodel) as Hstart.
  split; [exact Hstart|].
  apply run_keeps_hidden; [|exact Hquiet].
  destruct Hstart as (model' & Hm' & Hv & _).
  unfold model_hidden. rewrite Hm', Hv. reflexivity.
Qed.

(** A hit, a miss, then a tap on the hidden marker: the model stays hidden. *)
Lemma sessionstart_hides_until_placed_witness :
  model_hidden
    (run [EvFrame 0 (Some surfaceFrame) stillPulse;
          EvFrame 16 (Some emptyFrame) stillPulse;
          EvSelect]
       (on_sessionstart (step (EvStartAR arNavigator) loaded))) = true.
Proof.
  refine (proj2 (sessionstart_hides_until_placed
                   (step (EvStartAR arNavigator) loaded) _ _ eq_refl _)).
  vm_compute. reflexivity.
Defined.

(** ** Reference-space negotiation *)

Lemma spaceRequests_app (cs ds : list Call) :
  spaceRequests (cs ++ ds) = (spaceRequests cs ++ spaceRequests ds)%list.
Proof. apply flat_map_app. Qed.

Lemma hitTestRequests_app (cs ds : list Call) :
  hitTestRequests (cs ++ ds) = (hitTestRequests cs ++ hitTestRequests ds)%list.
Proof. apply flat_map_app. Qed.

Lemma spaceRequests_map (types : list XRReferenceSpaceType) :
  spaceRequests (map CallRequestReferenceSpace types) = types.
Proof.
  induction types as [|ty rest IH]; [reflexivity|].
  cbn. f_equal. exact IH.
Qed.

Lemma hitTestRequests_map (types : list XRReferenceSpaceType) :
  hitTestRequests (map CallRequestReferenceSpace types) = [].
Proof.
  induction types as [|ty rest IH]; [reflexivity|]. cbn. exact IH.
Qed.

(** The loop stops at the first type the session grants. *)
Lemma requestFirstSpace_granted (session : XRSession)
    (pre : list XRReferenceSpaceType) (ty : XRReferenceSpaceType)
    (post : list XRReferenceSpaceType) (space : XRReferenceSpace) (s : State) :
  (forall t, In t pre -> requestReferenceSpace session t = None) ->
  requestReferenceSpace session ty = Some space ->
  exists s',
    requestFirstSpace session (pre ++ ty :: post) s = (Ok (Some space), s')
    /\ calls s' = (calls s ++ map CallRequestReferenceSpace (pre ++ [ty]))%list
    /\ session_refs s' = session_refs s.
Proof.
  revert s. induction pre as [|t pre IH]; intros s Hpre Hty.
  - cbn [app requestFirstSpace]. unfold bind, act, ret. rewrite Hty.
    eexists. split; [reflexivity|]. split; reflexivity.
  - cbn [app requestFirstSpace]. unfold bind at 1. unfold act at 1.
    rewrite (Hpre t) by (left; reflexivity).
    unfold bind at 1. unfold act at 1.
    destruct (IH (log ("Reference space " ++ type_name t ++ " not supported")
                    (call (CallRequestReferenceSpace t) s)))
      as (s' & Heq & Hcalls & Hrefs);
      [intros t' Ht'; apply Hpre; right; exact Ht' | exact Hty |].
    exists s'. split; [exact Heq|]. split.
    + rewrite Hcalls. cbn [log call calls map]. rewrite <- app_assoc.
      reflexivity.
    + rewrite Hrefs. reflexivity.
Qed.

(** The loop asks for every type when the session grants none. *)
Lemma requestFirstSpace_rejected (session : XRSession)
    (types : list XRReferenceSpaceType) (s : State) :
  (forall t, In t types -> requestReferenceSpace session t = None) ->
  exists s',
    requestFirstSpace session types s = (Ok None, s')
    /\ calls s' = (calls s ++ map CallRequestReferenceSpace types)%list
    /\ session_refs s' = session_refs s.
Proof.
  revert s. induction types as [|t types IH]; intros s Hall.
  - exists s. cbn. rewrite app_nil_r. repeat split.
  - cbn [requestFirstSpace]. unfold bind at 1. unfold act at 1.
    rewrite (Hall t) by (left; reflexivity).
    unfold bind at 1. unfold act at 1.
    destruct (IH (log ("Reference space " ++ type_name t ++ " not supported")
                    (call (CallRequestReferenceSpace t) s)))
      as (s' & Heq & Hcalls & Hrefs);
      [intros t' Ht'; apply Hall; right; exact Ht'|].
    exists s'. split; [exact Heq|]. split.
    + rewrite Hcalls. cbn [log call calls map]. rewrite <- app_assoc.
      reflexivity.
    + rewrite Hrefs. reflexivity.
Qed.

(** The hit-test block never throws, keeps the reference space, and asks
    for a hit-test source exactly when the session has the method. *)
Lemma requestHitTest_ok (session : XRSession) (space : XRReferenceSpace)
    (s : State) :
  exists s',
    requestHitTest session space s = (Ok tt, s')
    /\ referenceSpaceRef s' = referenceSpaceRef s
    /\ spaceRequests (calls s') = spaceRequests (calls s)
    /\ hitTestRequests (calls s')
       = (hitTestRequests (calls s)
          ++ match requestHitTestSource session with
             | Some _ => [space]
             | None => []
             end)%list
    /\ (errorMessage s' = errorMessage s
        \/ errorMessage s'
           = "Could not initialize hit testing. Some AR features may be limited.").
Proof.
  unfold requestHitTest, try_catch, bind, act, ret, throw.
  destruct (requestHitTestSource session) as [request|].
  - destruct (request space) as [[source|]|];
      (eexists; split; [reflexivity|]);
      cbn; rewrite spaceRequests_app, hitTestRequests_app; cbn;
      rewrite app_nil_r; repeat split; auto.
  - eexists. split; [reflexivity|]. rewrite app_nil_r. repeat split; auto.
Qed.

Lemma negotiating_calls (s : State) :
  spaceRequests (calls (negotiating s)) = spaceRequests (calls s)
  /\ hitTestRequests (calls (negotiating s)) = hitTestRequests (calls s)
  /\ session_refs (negotiating s) = session_refs s.
Proof.
  unfold negotiating. destruct (rendererRef s); cbn;
    rewrite ?spaceRequests_app, ?hitTestRequests_app; cbn;
    rewrite ?app_nil_r; repeat split.
Qed.

(** What a run does once the session is granted, by the answer of the
    loop. *)
Lemma startARSession_granted (navigator : Navigator) (xrSystem : XRSystem)
    (session : XRSession) (s s1 : State) (space : XRReferenceSpace) :
  xr navigator = Some xrSystem ->
  requestSession xrSystem = Some session ->
  requestFirstSpace session referenceSpaceTypes (negotiating s)
  = (Ok (Some space), s1) ->
  startARSession navigator s
  = snd (requestHitTest session space
           (with_referenceSpaceRef s1 (Some space))).
Proof.
  intros Hxr Hsession Hloop. unfold startARSession. rewrite Hxr.
  unfold startARSession_body, try_catch.
  unfold bind at 1. unfold act at 1. unfold bind at 1. rewrite Hsession.
  unfold ret at 1. unfold bind at 1.
  assert (Hneg : (if rendererRef (call CallRequestSession s)
                  then act (call CallSetSession) (call CallRequestSession s)
                  else ret tt (call CallRequestSession s))
                 = (Ok tt, negotiating s)).
  { unfold negotiating. cbn [call rendererRef].
    destruct (rendererRef s); reflexivity. }
  rewrite Hneg. unfold bind at 1. rewrite Hloop.
  unfold bind at 1. unfold act at 1.
  destruct (requestHitTest_ok session space
              (with_referenceSpaceRef s1 (Some space))) as (s' & Heq & _).
  rewrite Heq. reflexivity.
Qed.

Lemma startARSession_no_space (navigator : Navigator) (xrSystem : XRSystem)
    (session : XRSession) (s s1 : State) :
  xr navigator = Some xrSystem ->
  requestSession xrSystem = Some session ->
  requestFirstSpace session referenceSpaceTypes (negotiating s)
  = (Ok None, s1) ->
  startARSession navigator s
  = setErrorMessage
      "Could not start AR session. Make sure your device supports WebXR."
      (log "Failed to start AR session:" s1).
Proof.
  intros Hxr Hsession Hloop. unfold startARSession. rewrite Hxr.
  unfold startARSession_body, try_catch.
  unfold bind at 1. unfold act at 1. unfold bind at 1. rewrite Hsession.
  unfold ret at 1. unfold bind at 1.
  assert (Hneg : (if rendererRef (call CallRequestSession s)
                  then act (call CallSetSession) (call CallRequestSession s)
                  else ret tt (call CallRequestSession s))
                 = (Ok tt, negotiating s)).
  { unfold negotiating. cbn [call rendererRef].
    destruct (rendererRef s); reflexivity. }
  rewrite Hneg. unfold bind at 1. rewrite Hloop. reflexivity.
Qed.

(** C3. Once the session is granted, [startARSession] asks for reference
    spaces in the order local-floor, bounded-floor, local, viewer; it stops
    at the first one granted, which becomes the reference space, and asks
    for none of the later ones; when all four are rejected it sets the
    session-start error message, keeps the reference-space and hit-test refs
    as they were and makes no hit-test request. *)
Theorem startARSession_first_granted_space
    (navigator : Navigator) (xrSystem : XRSystem) (session : XRSession)
    (s : State) :
  xr navigator = Some xrSystem ->
  requestSession xrSystem = Some session ->
  referenceSpaceTypes = [local_floor; bounded_floor; local; viewer]
  /\ (forall pre ty post space,
         referenceSpaceTypes = (pre ++ ty :: post)%list ->
         (forall t, In t pre -> requestReferenceSpace session t = None) ->
         requestReferenceSpace session ty = Some space ->
         spaceRequests (calls (startARSession navigator s))
         = (spaceRequests (calls s) ++ pre ++ [ty])%list
         /\ referenceSpaceRef (startARSession navigator s) = Some space)
  /\ ((forall t, In t referenceSpaceTypes ->
                 requestReferenceSpace session t = None) ->
      spaceRequests (calls (startARSession navigator s))
      = (spaceRequests (calls s) ++ referenceSpaceTypes)%list
      /\ errorMessage (startARSession navigator s)
         = "Could not start AR session. Make sure your device supports WebXR."
      /\ referenceSpaceRef (startARSession navigator s) = referenceSpaceRef s
      /\ hitTestSourceRef (startARSession navigator s) = hitTestSourceRef s
      /\ hitTestRequests (calls (startARSession navigator s))
         = hitTestRequests (calls s)).
Proof.
  intros Hxr Hsession. split; [reflexivity|].
  destruct (negotiating_calls s) as (Hnsp & Hnhit & Hnrefs). split.
  - intros pre ty post space Hsplit Hpre Hty.
    destruct (requestFirstSpace_granted session pre ty post space
                (negotiating s) Hpre Hty) as (s1 & Hloop & Hcalls & _).
    rewrite <- Hsplit in Hloop.
    rewrite (startARSession_granted _ _ _ _ _ _ Hxr Hsession Hloop).
    destruct (requestHitTest_ok session space
                (with_referenceSpaceRef s1 (Some space)))
      as (s' & Heq & Href & Hsp & _).
    rewrite Heq. cbn [snd]. rewrite Href, Hsp. cbn [with_referenceSpaceRef
      calls referenceSpaceRef]. rewrite Hcalls, spaceRequests_app,
      spaceRequests_map, Hnsp. split; reflexivity.
  - intros Hall.
    destruct (requestFirstSpace_rejected session referenceSpaceTypes
                (negotiating s) Hall) as (s1 & Hloop & Hcalls & Hrefs).
    rewrite (startARSession_no_space _ _ _ _ _ Hxr Hsession Hloop).
    rewrite Hnrefs in Hrefs. unfold session_refs in Hrefs.
    injection Hrefs as Hsrc _ Href _.
    cbn [setErrorMessage log calls errorMessage referenceSpaceRef
         hitTestSourceRef].
    rewrite Hcalls, spaceRequests_app, hitTestRequests_app,
      spaceRequests_map, hitTestRequests_map, app_nil_r, Hnsp, Hnhit.
    repeat split; assumption.
Qed.

(** A platform that grants the first type, and one that grants none. *)
Lemma startARSession_first_granted_space_witness :
  (spaceRequests (calls (startARSession arNavigator loaded))
   = [local_floor]
   /\ referenceSpaceRef (startARSession arNavigator loaded) = Some floorSpace)
  /\ spaceRequests (calls (startARSession noSpaceNavigator loaded))
     = [local_floor; bounded_floor; local; viewer]
  /\ errorMessage (startARSession noSpaceNavigator loaded)
     = "Could not start AR session. Make sure your device supports WebXR.".
Proof.
  split.
  - refine (proj1 (proj2 (startARSession_first_granted_space arNavigator _
                            arSession loaded eq_refl eq_refl))
              [] local_floor [bounded_floor; local; viewer] floorSpace
              eq_refl _ eq_refl).
    intros t [].
  - pose proof (proj2 (proj2 (startARSession_first_granted_space
                                noSpaceNavigator _ noSpaceSession loaded
                                eq_refl eq_refl))
                  (fun t _ => eq_refl)) as H.
    split; [exact (proj1 H) | exact (proj1 (proj2 H))].
Defined.

(** On a platform that grants the viewer space only, the run does ask for a
    hit-test source, bound to the viewer space. *)
Lemma startARSession_viewer_requests_hit_test :
  requestReferenceSpace viewerOnlySession local_floor = None
  /\ requestReferenceSpace viewerOnlySession bounded_floor = None
  /\ requestReferenceSpace viewerOnlySession local = None
  /\ requestReferenceSpace viewerOnlySession viewer = Some viewerSpace
  /\ referenceSpaceRef (startARSession viewerOnlyNavigator loaded)
     = Some viewerSpace
  /\ hitTestRequests (calls (startARSession viewerOnlyNavigator loaded))
     = [viewerSpace]
  /\ hitTestRequests (calls (startARSession viewerOnlyNavigator loaded)) <> [].
Proof.
  repeat split; try reflexivity. vm_compute. discriminate.
Qed.

(** C2. When the session rejects every reference space but the viewer
    space, [startARSession] has asked for all four types in order, takes the
    viewer space as the reference space, does not report a session-start
    failure, and asks for a hit-test source bound to the viewer space
    whenever the session has [requestHitTestSource]. *)
Theorem startARSession_viewer_only
    (navigator : Navigator) (xrSystem : XRSystem) (session : XRSession)
    (space : XRReferenceSpace) (s : State) :
  xr navigator = Some xrSystem ->
  requestSession xrSystem = Some session ->
  (forall t, t <> viewer -> requestReferenceSpace session t = None) ->
  requestReferenceSpace session viewer = Some space ->
  referenceSpaceRef (startARSession navigator s) = Some space
  /\ spaceRequests (calls (startARSession navigator s))
     = (spaceRequests (calls s)
        ++ [local_floor; bounded_floor; local; viewer])%list
  /\ hitTestRequests (calls (startARSession navigator s))
     = (hitTestRequests (calls s)
        ++ match requestHitTestSource session with
           | Some _ => [space]
           | None => []
           end)%list
  /\ (errorMessage (startARSession navigator s) = errorMessage s
      \/ errorMessage (startARSession navigator s)
         = "Could not initialize hit testing. Some AR features may be limited.").
Proof.
  intros Hxr Hsession Hothers Hviewer.
  destruct (negotiating_calls s) as (Hnsp & Hnhit & Hnrefs).
  destruct (requestFirstSpace_granted session [local_floor; bounded_floor; local]
              viewer [] space (negotiating s)) as (s1 & Hloop & Hcalls & Hrefs).
  { intros t Ht. apply Hothers. intros ->.
    cbn in Ht. intuition discriminate. }
  { exact Hviewer. }
  rewrite (startARSession_granted _ _ _ _ _ _ Hxr Hsession Hloop).
  destruct (requestHitTest_ok session space
              (with_referenceSpaceRef s1 (Some space)))
    as (s' & Heq & Href & Hsp & Hhit & Hmsg).
  rewrite Heq. cbn [snd]. rewrite Href, Hsp, Hhit.
  cbn [with_referenceSpaceRef calls referenceSpaceRef errorMessage] in *.
  rewrite Hcalls, spaceRequests_app, hitTestRequests_app, spaceRequests_map,
    hitTestRequests_map, app_nil_r, Hnsp, Hnhit.
  rewrite Hnrefs in Hrefs. unfold session_refs in Hrefs.
  injection Hrefs as _ _ _ Herr. rewrite <- Herr.
  repeat split. exact Hmsg.
Qed.

(** The viewer-only platform. *)
Lemma startARSession_viewer_only_witness :
  referenceSpaceRef (startARSession viewerOnlyNavigator loaded)
  = Some viewerSpace
  /\ spaceRequests (calls (startARSession viewerOnlyNavigator loaded))
     = [local_floor; bounded_floor; local; viewer].
Proof.
  pose proof (startARSession_viewer_only viewerOnlyNavigator _
                viewerOnlySession viewerSpace loaded eq_refl eq_refl) as H.
  assert (Hothers : forall t, t <> viewer ->
                      requestReferenceSpace viewerOnlySession t = None).
  { intros [] Ht; try reflexivity. exfalso. apply Ht. reflexivity. }
  specialize (H Hothers eq_refl).
  split; [exact (proj1 H) | exact (proj1 (proj2 H))].
Defined.

(** ** The certificate script *)

Section GenerateCertFacts.
Import GenerateCert.

Lemma path_join_file (dir : Path) (name : string) :
  String.eqb name ".." = false ->
  path_join dir [name] = (dir ++ [name])%list.
Proof. intros Hname. cbn [path_join]. rewrite Hname. reflexivity. Qed.

Lemma certsDir_sibling (p : Process) :
  certsDir p = (removelast (dirname p) ++ ["certs"])%list.
Proof. reflexivity. Qed.

Lemma files_distinct (dir : Path) (a b : string) :
  a <> b -> (dir ++ [a])%list <> (dir ++ [b])%list.
Proof.
  intros Hab Heq. apply app_inv_head in Heq. congruence.
Qed.

Lemma bind_ok {S A B} (c : M S A) (k : A -> M S B) (s s' : S) (a : A) :
  c s = (Ok a, s') -> bind c k s = k a s'.
Proof. intros Hc. unfold bind. rewrite Hc. reflexivity. Qed.

Lemma bind_throw {S A B} (c : M S A) (k : A -> M S B) (s s' : S)
    (err : string) :
  c s = (Throw err, s') -> bind c k s = (Throw err, s').
Proof. intros Hc. unfold bind. rewrite Hc. reflexivity. Qed.

Lemma execSync_ok (openssl : Command -> bool) (c : Command) (w : World) :
  openssl c = true -> execSync openssl c w = (Ok tt, ran c w).
Proof. intros Hc. unfold execSync. rewrite Hc. reflexivity. Qed.

Lemma execSync_fail (openssl : Command -> bool) (c : Command) (w : World) :
  openssl c = false -> exists w', execSync openssl c w = (Throw "Command failed", w').
Proof. intros Hc. unfold execSync. rewrite Hc. eexists. reflexivity. Qed.

Lemma generate_all_ok (openssl : Command -> bool) (dir : Path) (w : World) :
  (forall c, In c (commands dir) -> openssl c = true) ->
  exists w',
    generate openssl dir w = (Ok tt, w')
    /\ dirs w' = dirs w
    /\ files w'
       = (files w ∪ {[ (dir ++ ["key.pem"])%list; (dir ++ ["cert.pem"])%list ]})
         ∖ {[ (dir ++ ["csr.pem"])%list ]}
    /\ effects w'
       = (effects w ++ map Exec (commands dir)
          ++ [Unlink (dir ++ ["csr.pem"])])%list.
Proof.
  intros Hall.
  pose proof (Hall _ (or_introl eq_refl)) as H1.
  pose proof (Hall _ (or_intror (or_introl eq_refl))) as H2.
  pose proof (Hall _ (or_intror (or_intror (or_introl eq_refl)))) as H3.
  unfold generate, commands.
  rewrite (bind_ok _ _ _ _ _ (execSync_ok _ _ _ H1)).
  rewrite (bind_ok _ _ _ _ _ (execSync_ok _ _ _ H2)).
  rewrite (bind_ok _ _ _ _ _ (execSync_ok _ _ _ H3)).
  rewrite !path_join_file by reflexivity.
  unfold bind, unlinkSync, act, ran.
  cbn [dirs files effects stdio out_file].
  rewrite bool_decide_true by set_solver.
  eexists. split; [reflexivity|].
  cbn [dirs files effects stdio console_log map]. split; [reflexivity|]. split.
  - set_solver.
  - rewrite <- !app_assoc. reflexivity.
Qed.

Lemma execSync_fail_bind {A} (openssl : Command -> bool) (c : Command)
    (k : unit -> M World A) (w : World) :
  openssl c = false ->
  exists err w', bind (execSync openssl c) k w = (Throw err, w').
Proof.
  intros Hc. destruct (execSync_fail openssl c w Hc) as [w' Hw'].
  rewrite (bind_throw _ _ _ _ _ Hw'). eauto.
Qed.

Lemma generate_some_fail (openssl : Command -> bool) (dir : Path) (w : World) :
  (exists c, In c (commands dir) /\ openssl c = false) ->
  exists err w', generate openssl dir w = (Throw err, w').
Proof.
  intros (c & Hin & Hfail). unfold generate.
  unfold commands in Hin. cbn [In] in Hin.
  destruct (openssl (genrsa (path_join dir ["key.pem"]) 2048)) eqn:H1;
    [|apply execSync_fail_bind; exact H1].
  rewrite (bind_ok _ _ _ _ _ (execSync_ok _ _ _ H1)).
  destruct (openssl (req (path_join dir ["key.pem"])
                       (path_join dir ["csr.pem"]) "/CN=localhost")) eqn:H2;
    [|apply execSync_fail_bind; exact H2].
  rewrite (bind_ok _ _ _ _ _ (execSync_ok _ _ _ H2)).
  destruct (openssl (x509 365 (path_join dir ["csr.pem"])
                       (path_join dir ["key.pem"])
                       (path_join dir ["cert.pem"]))) eqn:H3;
    [|apply execSync_fail_bind; exact H3].
  exfalso. destruct Hin as [<-|[<-|[<-|[]]]]; congruence.
Qed.

Lemma mkdir_effects (p : Process) (w : World) :
  let w0 := if existsSync (certsDir p) w then w
            else mkdirSync (certsDir p) w in
  files w0 = files w
  /\ effects w0
     = (effects w
        ++ if existsSync (certsDir p) w then [] else [Mkdir (certsDir p)])%list.
Proof.
  cbv zeta. destruct (existsSync (certsDir p) w); cbn.
  - rewrite app_nil_r. split; reflexivity.
  - split; reflexivity.
Qed.

(** C9. The script reads nothing of its process but the directory it
    lives in, so its command-line arguments are ignored.  Its output
    directory is [certs] beside that directory.  When the three [openssl]
    commands succeed it exits with status 0, having run them with the
    out-files [key.pem], [csr.pem] and [cert.pem] of the output directory
    and then removed [csr.pem]: the key and the certificate are left and
    the request is gone.  When one of the commands fails it exits with
    status 1. *)
Theorem generate_cert_contract
    (p : Process) (openssl : Command -> bool) (w : World) :
  certsDir p = (removelast (dirname p) ++ ["certs"])%list
  /\ map out_file (commands (certsDir p))
     = [ (certsDir p ++ ["key.pem"])%list;
         (certsDir p ++ ["csr.pem"])%list;
         (certsDir p ++ ["cert.pem"])%list ]
  /\ (forall p', dirname p' = dirname p ->
                 main p' openssl w = main p openssl w)
  /\ ((forall c, In c (commands (certsDir p)) -> openssl c = true) ->
      fst (main p openssl w) = 0
      /\ effects (snd (main p openssl w))
         = (effects w
            ++ (if existsSync (certsDir p) w then []
                else [Mkdir (certsDir p)])
            ++ map Exec (commands (certsDir p))
            ++ [Unlink (certsDir p ++ ["csr.pem"])])%list
      /\ (certsDir p ++ ["key.pem"])%list ∈ files (snd (main p openssl w))
      /\ (certsDir p ++ ["cert.pem"])%list ∈ files (snd (main p openssl w))
      /\ (certsDir p ++ ["csr.pem"])%list ∉ files (snd (main p openssl w)))
  /\ ((exists c, In c (commands (certsDir p)) /\ openssl c = false) ->
      fst (main p openssl w) = 1).
Proof.
  split; [apply certsDir_sibling|]. split.
  { unfold commands. cbn [map out_file].
    rewrite !path_join_file by reflexivity. reflexivity. }
  split.
  { intros p' Hdir. unfold main, certsDir. rewrite Hdir. reflexivity. }
  pose proof (mkdir_effects p w) as Hmk. cbv zeta in Hmk.
  unfold main.
  set (w0 := if existsSync (certsDir p) w then w
             else mkdirSync (certsDir p) w) in *.
  destruct Hmk as [Hfiles Heffects]. split.
  - intros Hall.
    destruct (generate_all_ok openssl (certsDir p) w0 Hall)
      as (w' & Heq & _ & Hf & He).
    rewrite Heq. cbn [fst snd]. split; [reflexivity|]. split.
    { rewrite He, Heffects, <- !app_assoc. reflexivity. }
    rewrite Hf.
    assert (Hk : (certsDir p ++ ["key.pem"])%list
                 <> (certsDir p ++ ["csr.pem"])%list)
      by (apply files_distinct; discriminate).
    assert (Hc : (certsDir p ++ ["cert.pem"])%list
                 <> (certsDir p ++ ["csr.pem"])%list)
      by (apply files_distinct; discriminate).
    clearbody w0. clear -Hk Hc.
    generalize dependent (certsDir p). intros dir Hk Hc.
    rewrite ?elem_of_difference, ?elem_of_union, ?elem_of_singleton.
    intuition congruence.
  - intros Hfail.
    destruct (generate_some_fail openssl (certsDir p) w0 Hfail)
      as (err & w' & Heq).
    rewrite Heq. reflexivity.
Qed.

(** A run with a working [openssl] and one where the request step fails. *)
Lemma generate_cert_contract_witness :
  fst (main scriptProcess toolWorks freshWorld) = 0
  /\ fst (main scriptProcess toolFailsAtRequest freshWorld) = 1.
Proof.
  split.
  - refine (proj1 (proj1 (proj2 (proj2 (proj2
             (generate_cert_contract scriptProcess toolWorks freshWorld))))
             (fun c _ => eq_refl))).
  - refine (proj2 (proj2 (proj2 (proj2
             (generate_cert_contract scriptProcess toolFailsAtRequest
                freshWorld))))
             (ex_intro _ (req ["repo"; "certs"; "key.pem"]
                            ["repo"; "certs"; "csr.pem"] "/CN=localhost")
                (conj (or_intror (or_introl eq_refl)) eq_refl))).
Defined.
End GenerateCertFacts.

(** * Further properties of the handlers *)

(** ** What [startARSession] keeps *)

Section Stable.
Context {S : Type} (Q : S -> Prop).

Lemma stable_ret {A} (a : A) : stable Q (@ret S A a).
Proof. intros s Hs. exact Hs. Qed.

Lemma stable_throw {A} (err : string) : stable Q (@throw S A err).
Proof. intros s Hs. exact Hs. Qed.

Lemma stable_act (f : S -> S) :
  (forall s, Q s -> Q (f s)) -> stable Q (act f).
Proof. intros Hf s Hs. apply Hf, Hs. Qed.

Lemma stable_bind {A B} (c : M S A) (k : A -> M S B) :
  stable Q c -> (forall a, stable Q (k a)) -> stable Q (bind c k).
Proof.
  intros Hc Hk s Hs. unfold bind. specialize (Hc s Hs).
  destruct (c s) as [[a|err] s']; cbn [snd] in *.
  - apply Hk, Hc.
  - exact Hc.
Qed.

Lemma stable_try_catch {A} (c : M S A) (handler : string -> M S A) :
  stable Q c -> (forall err, stable Q (handler err)) ->
  stable Q (try_catch c handler).
Proof.
  intros Hc Hh s Hs. unfold try_catch. specialize (Hc s Hs).
  destruct (c s) as [[a|err] s']; cbn [snd] in *.
  - exact Hc.
  - apply Hh, Hc.
Qed.
End Stable.

(** A property kept by each of the writes [startARSession] can make is kept
    by the whole run. *)
Section StartKeeps.
Variable Q : State -> Prop.
Hypothesis Q_log : forall msg s, Q s -> Q (log msg s).
Hypothesis Q_call : forall c s, Q s -> Q (call c s).
Hypothesis Q_error : forall msg s, msg <> "" -> Q s -> Q (setErrorMessage msg s).
Hypothesis Q_space :
  forall space s, Q s -> Q (with_referenceSpaceRef s (Some space)).
Hypothesis Q_source :
  forall source s, Q s -> Q (with_hitTestSourceRef s (Some source)).
Hypothesis Q_requested :
  forall s, Q s -> Q (with_hitTestSourceRequestedRef s true).

Lemma requestFirstSpace_stable (session : XRSession)
    (types : list XRReferenceSpaceType) :
  stable Q (requestFirstSpace session types).
Proof using Q_log Q_call.
  induction types as [|ty rest IH]; cbn [requestFirstSpace];
    [apply stable_ret|].
  apply stable_bind; [apply stable_act, Q_call|]. intros _.
  destruct (requestReferenceSpace session ty).
  - apply stable_bind; [apply stable_act, Q_log | intros _; apply stable_ret].
  - apply stable_bind; [apply stable_act, Q_log | intros _; exact IH].
Qed.

Lemma requestHitTest_stable (session : XRSession) (space : XRReferenceSpace) :
  stable Q (requestHitTest session space).
Proof using Q_log Q_call Q_error Q_source Q_requested.
  unfold requestHitTest. apply stable_try_catch.
  - destruct (requestHitTestSource session) as [request|];
      [|apply stable_ret].
    apply stable_bind; [apply stable_act, Q_call|]. intros _.
    destruct (request space) as [[source|]|].
    + apply stable_bind; [apply stable_act, Q_source|]. intros _.
      apply stable_act, Q_requested.
    + apply stable_ret.
    + apply stable_throw.
  - intros _. apply stable_bind; [apply stable_act, Q_log|]. intros _.
    apply stable_act. intros s. apply Q_error. discriminate.
Qed.

Lemma startARSession_stable (navigator : Navigator) (s : State) :
  Q s -> Q (startARSession navigator s).
Proof using Q_log Q_call Q_error Q_space Q_source Q_requested.
  unfold startARSession. destruct (xr navigator) as [xrSystem|].
  2: { apply Q_error. discriminate. }
  revert s. change (stable Q (startARSession_body xrSystem)).
  unfold startARSession_body. apply stable_try_catch.
  - apply stable_bind; [apply stable_act, Q_call|]. intros _.
    apply stable_bind.
    { destruct (requestSession xrSystem); [apply stable_ret|apply stable_throw]. }
    intros session. apply stable_bind.
    { intros s Hs. destruct (rendererRef s); cbn [snd act ret];
        [apply Q_call, Hs | exact Hs]. }
    intros _. apply stable_bind; [apply requestFirstSpace_stable|].
    intros [space|]; [|apply stable_throw].
    apply stable_bind; [apply stable_act, Q_space|]. intros _.
    apply requestHitTest_stable.
  - intros _. apply stable_bind; [apply stable_act, Q_log|]. intros _.
    apply stable_act. intros s. apply Q_error. discriminate.
Qed.
End StartKeeps.

(** A view of the state that none of the writes of [startARSession] changes
    is the same after the run. *)
Lemma startARSession_keeps_view {T} (P : State -> T) :
  (forall msg s, P (log msg s) = P s) ->
  (forall c s, P (call c s) = P s) ->
  (forall msg s, P (setErrorMessage msg s) = P s) ->
  (forall r s, P (with_referenceSpaceRef s r) = P s) ->
  (forall h s, P (with_hitTestSourceRef s h) = P s) ->
  (forall b s, P (with_hitTestSourceRequestedRef s b) = P s) ->
  forall navigator s, P (startARSession navigator s) = P s.
Proof.
  intros Hlog Hcall Herr Hspace Hsource Hreq navigator s.
  apply (startARSession_stable (fun s' => P s' = P s)); try reflexivity;
    intros; rewrite ?Hlog, ?Hcall, ?Herr, ?Hspace, ?Hsource, ?Hreq; assumption.
Qed.

(** X5. A press on the start button never touches the model, the marker,
    the session flag or the renderer ref. *)
Theorem startARSession_leaves_scene_and_flags
    (navigator : Navigator) (s : State) :
  modelRef (startARSession navigator s) = modelRef s
  /\ markerRef (startARSession navigator s) = markerRef s
  /\ isARSessionActive (startARSession navigator s) = isARSessionActive s
  /\ rendererRef (startARSession navigator s) = rendererRef s.
Proof.
  repeat split;
    apply (startARSession_keeps_view _); intros; reflexivity.
Qed.

(** ** How a run of [startARSession] can end *)

(** X1. When [navigator.xr] is missing or the session request is rejected,
    the run sets an error message and nothing else of the refs: no session
    is handed to the renderer, no reference space and no hit-test source is
    asked for. *)
Theorem startARSession_fails_before_negotiation
    (navigator : Navigator) (s : State) :
  xr navigator = None
  \/ (exists xrSystem,
        xr navigator = Some xrSystem /\ requestSession xrSystem = None) ->
  errorMessage (startARSession navigator s)
  = match xr navigator with
    | None => "WebXR not available."
    | Some _ =>
        "Could not start AR session. Make sure your device supports WebXR."
    end
  /\ calls (startARSession navigator s)
     = (calls s ++ match xr navigator with
                   | None => []
                   | Some _ => [CallRequestSession]
                   end)%list
  /\ referenceSpaceRef (startARSession navigator s) = referenceSpaceRef s
  /\ hitTestSourceRef (startARSession navigator s) = hitTestSourceRef s
  /\ hitTestSourceRequestedRef (startARSession navigator s)
     = hitTestSourceRequestedRef s.
Proof.
  intros [Hxr | (xrSystem & Hxr & Hsession)]; unfold startARSession;
    rewrite Hxr.
  - cbn. rewrite app_nil_r. repeat split.
  - unfold startARSession_body, try_catch, bind, act, throw.
    rewrite Hsession. cbn. repeat split.
Qed.

(** A browser without WebXR, and one that refuses the session. *)
Lemma startARSession_fails_before_negotiation_witness :
  errorMessage (startARSession {| xr := None |} loaded)
  = "WebXR not available."
  /\ calls (startARSession {| xr := Some {| requestSession := None |} |} loaded)
     = [CallRequestSession].
Proof.
  split.
  - exact (proj1 (startARSession_fails_before_negotiation
                    {| xr := None |} loaded (or_introl eq_refl))).
  - exact (proj1 (proj2 (startARSession_fails_before_negotiation
                    {| xr := Some {| requestSession := None |} |} loaded
                    (or_intror (ex_intro _ _ (conj eq_refl eq_refl)))))).
Defined.

Lemma first_grant_cases (session : XRSession)
    (types : list XRReferenceSpaceType) :
  (exists pre ty post space,
      types = (pre ++ ty :: post)%list
      /\ (forall t, In t pre -> requestReferenceSpace session t = None)
      /\ requestReferenceSpace session ty = Some space)
  \/ (forall t, In t types -> requestReferenceSpace session t = None).
Proof.
  induction types as [|ty rest IH]; [right; intros t []|].
  destruct (requestReferenceSpace session ty) as [space|] eqn:Hty.
  - left. exists [], ty, rest, space. repeat split; [intros t []|exact Hty].
  - destruct IH as [(pre & ty' & post & space & Hsplit & Hpre & Hty')|Hall].
    + left. exists (ty :: pre), ty', post, space. rewrite Hsplit.
      repeat split; [|exact Hty'].
      intros t [<-|Ht]; [exact Hty|apply Hpre, Ht].
    + right. intros t [<-|Ht]; [exact Hty|apply Hall, Ht].
Qed.

(** The state a granted run leaves, up to the hit-test block. *)
Lemma startARSession_granted_state (navigator : Navigator)
    (xrSystem : XRSystem) (session : XRSession) (s : State)
    (pre : list XRReferenceSpaceType) (ty : XRReferenceSpaceType)
    (post : list XRReferenceSpaceType) (space : XRReferenceSpace) :
  xr navigator = Some xrSystem ->
  requestSession xrSystem = Some session ->
  referenceSpaceTypes = (pre ++ ty :: post)%list ->
  (forall t, In t pre -> requestReferenceSpace session t = None) ->
  requestReferenceSpace session ty = Some space ->
  exists s1,
    startARSession navigator s
    = snd (requestHitTest session space
             (with_referenceSpaceRef s1 (Some space)))
    /\ session_refs s1 = session_refs s
    /\ hitTestRequests (calls s1) = hitTestRequests (calls s).
Proof.
  intros Hxr Hsession Hsplit Hpre Hty.
  destruct (requestFirstSpace_granted session pre ty post space
              (negotiating s) Hpre Hty) as (s1 & Hloop & Hcalls & Hrefs).
  rewrite <- Hsplit in Hloop. exists s1.
  split; [exact (startARSession_granted _ _ _ _ _ _ Hxr Hsession Hloop)|].
  destruct (negotiating_calls s) as (_ & Hnhit & Hnrefs).
  split; [rewrite Hrefs; exact Hnrefs|].
  rewrite Hcalls, hitTestRequests_app, hitTestRequests_map, app_nil_r.
  exact Hnhit.
Qed.

(** X2. When a reference space is granted but the hit-test source request
    is rejected, the run keeps the granted space, leaves the hit-test source
    ref as it was, and reports that hit testing could not be initialised:
    the session goes on without placement guidance. *)
Theorem startARSession_hit_test_rejected
    (navigator : Navigator) (xrSystem : XRSystem) (session : XRSession)
    (s : State) (pre : list XRReferenceSpaceType) (ty : XRReferenceSpaceType)
    (post : list XRReferenceSpaceType) (space : XRReferenceSpace)
    (request : XRReferenceSpace -> HitTestOutcome) :
  xr navigator = Some xrSystem ->
  requestSession xrSystem = Some session ->
  referenceSpaceTypes = (pre ++ ty :: post)%list ->
  (forall t, In t pre -> requestReferenceSpace session t = None) ->
  requestReferenceSpace session ty = Some space ->
  requestHitTestSource session = Some request ->
  request space = Rejected ->
  referenceSpaceRef (startARSession navigator s) = Some space
  /\ hitTestSourceRef (startARSession navigator s) = hitTestSourceRef s
  /\ hitTestSourceRequestedRef (startARSession navigator s)
     = hitTestSourceRequestedRef s
  /\ errorMessage (startARSession navigator s)
     = "Could not initialize hit testing. Some AR features may be limited."
  /\ hitTestRequests (calls (startARSession navigator s))
     = (hitTestRequests (calls s) ++ [space])%list.
Proof.
  intros Hxr Hsession Hsplit Hpre Hty Hreq Hrej.
  destruct (startARSession_granted_state navigator xrSystem session s
              pre ty post space Hxr Hsession Hsplit Hpre Hty)
    as (s1 & -> & Hrefs & Hhit).
  unfold session_refs in Hrefs. injection Hrefs as Hsrc Hrq _ _.
  unfold requestHitTest, try_catch, bind, act, throw.
  rewrite Hreq, Hrej. cbn.
  rewrite hitTestRequests_app, Hhit. cbn. repeat split; assumption.
Qed.

(** X3. When a reference space is granted and the hit-test source request
    resolves, the run keeps the granted space and sets no error message; a
    source, when one is returned, is stored and the requested flag raised,
    and a falsy result leaves both as they were. *)
Theorem startARSession_hit_test_resolved
    (navigator : Navigator) (xrSystem : XRSystem) (session : XRSession)
    (s : State) (pre : list XRReferenceSpaceType) (ty : XRReferenceSpaceType)
    (post : list XRReferenceSpaceType) (space : XRReferenceSpace)
    (request : XRReferenceSpace -> HitTestOutcome)
    (result : option XRHitTestSource) :
  xr navigator = Some xrSystem ->
  requestSession xrSystem = Some session ->
  referenceSpaceTypes = (pre ++ ty :: post)%list ->
  (forall t, In t pre -> requestReferenceSpace session t = None) ->
  requestReferenceSpace session ty = Some space ->
  requestHitTestSource session = Some request ->
  request space = Resolved result ->
  referenceSpaceRef (startARSession navigator s) = Some space
  /\ errorMessage (startARSession navigator s) = errorMessage s
  /\ hitTestSourceRef (startARSession navigator s)
     = match result with
       | Some source => Some source
       | None => hitTestSourceRef s
       end
  /\ hitTestSourceRequestedRef (startARSession navigator s)
     = match result with
       | Some _ => true
       | None => hitTestSourceRequestedRef s
       end.
Proof.
  intros Hxr Hsession Hsplit Hpre Hty Hreq Hres.
  destruct (startARSession_granted_state navigator xrSystem session s
              pre ty post space Hxr Hsession Hsplit Hpre Hty)
    as (s1 & -> & Hrefs & Hhit).
  unfold session_refs in Hrefs. injection Hrefs as Hsrc Hrq _ Herr.
  unfold requestHitTest, try_catch, bind, act, ret.
  rewrite Hreq, Hres. destruct result as [source|]; cbn;
    repeat split; assumption.
Qed.

(** A platform whose hit-test request is rejected. *)
Lemma startARSession_hit_test_rejected_witness :
  referenceSpaceRef (startARSession noHitTestNavigator loaded) = Some floorSpace
  /\ hitTestSourceRef (startARSession noHitTestNavigator loaded) = None.
Proof.
  pose proof (startARSession_hit_test_rejected noHitTestNavigator _
                noHitTestSession loaded [] local_floor
                [bounded_floor; local; viewer] floorSpace _
                eq_refl eq_refl eq_refl (fun t (H : In t []) => match H with end)
                eq_refl eq_refl eq_refl) as H.
  split; [exact (proj1 H) | exact (proj1 (proj2 H))].
Defined.

(** The platform that grants everything. *)
Lemma startARSession_hit_test_resolved_witness :
  hitTestSourceRef (startARSession arNavigator loaded)
  = Some {| source_space := floorSpace |}.
Proof.
  exact (proj1 (proj2 (proj2
           (startARSession_hit_test_resolved arNavigator _ arSession loaded
              [] local_floor [bounded_floor; local; viewer] floorSpace _
              (Some {| source_space := floorSpace |})
              eq_refl eq_refl eq_refl
              (fun t (H : In t []) => match H with end)
              eq_refl eq_refl eq_refl)))).
Defined.

(** X4. Whatever the platform answers, a run either leaves the reference
    space, the hit-test source and the hit-test requests as they were, or
    stores a space that the session granted for one of the four types; in
    that case it makes at most one hit-test request, and that request is
    bound to the stored space. *)
Theorem startARSession_stores_granted_space
    (navigator : Navigator) (s : State) :
  (referenceSpaceRef (startARSession navigator s) = referenceSpaceRef s
   /\ hitTestSourceRef (startARSession navigator s) = hitTestSourceRef s
   /\ hitTestRequests (calls (startARSession navigator s))
      = hitTestRequests (calls s))
  \/ (exists xrSystem session ty space,
         xr navigator = Some xrSystem
         /\ requestSession xrSystem = Some session
         /\ In ty referenceSpaceTypes
         /\ requestReferenceSpace session ty = Some space
         /\ referenceSpaceRef (startARSession navigator s) = Some space
         /\ hitTestRequests (calls (startARSession navigator s))
            = (hitTestRequests (calls s)
               ++ match requestHitTestSource session with
                  | Some _ => [space]
                  | None => []
                  end)%list).
Proof.
  destruct (xr navigator) as [xrSystem|] eqn:Hxr.
  2: { left. unfold startARSession. rewrite Hxr. repeat split. }
  destruct (requestSession xrSystem) as [session|] eqn:Hsession.
  2: { left. unfold startARSession. rewrite Hxr.
       unfold startARSession_body, try_catch, bind, act, throw.
       rewrite Hsession. cbn. rewrite hitTestRequests_app, app_nil_r.
       repeat split. }
  destruct (first_grant_cases session referenceSpaceTypes)
    as [(pre & ty & post & space & Hsplit & Hpre & Hty)|Hall].
  - right. exists xrSystem, session, ty, space.
    split; [reflexivity|]. split; [exact Hsession|].
    split; [rewrite Hsplit; apply in_or_app; right; left; reflexivity|].
    split; [exact Hty|].
    destruct (startARSession_granted_state navigator xrSystem session s
                pre ty post space Hxr Hsession Hsplit Hpre Hty)
      as (s1 & -> & _ & Hhit).
    destruct (requestHitTest_ok session space
                (with_referenceSpaceRef s1 (Some space)))
      as (s' & Heq & Href & _ & Hreqs & _).
    rewrite Heq. cbn [snd]. rewrite Href, Hreqs. cbn [with_referenceSpaceRef
      referenceSpaceRef calls]. rewrite Hhit. split; reflexivity.
  - left.
    destruct (requestFirstSpace_rejected session referenceSpaceTypes
                (negotiating s) Hall) as (s1 & Hloop & Hcalls & Hrefs).
    rewrite (startARSession_no_space _ _ _ _ _ Hxr Hsession Hloop).
    destruct (negotiating_calls s) as (_ & Hnhit & Hnrefs).
    rewrite Hnrefs in Hrefs. unfold session_refs in Hrefs.
    injection Hrefs as Hsrc _ Href _.
    cbn [setErrorMessage log calls referenceSpaceRef hitTestSourceRef].
    rewrite Hcalls, hitTestRequests_app, hitTestRequests_map, app_nil_r.
    repeat split; assumption.
Qed.

(** ** What no event undoes *)

Lemma step_error_kept (e : Event) (s : State) :
  errorMessage s <> "" -> errorMessage (step e s) <> "".
Proof.
  intros Hs. destruct e as [| | |time frame p|navigator]; cbn [step].
  - unfold onSelect. cbn [log modelRef markerRef].
    destruct (modelRef s), (markerRef s) as [marker|];
      try destruct (Object3D.visible marker); exact Hs.
  - unfold on_sessionstart.
    cbn [log setIsARSessionActive with_hitTestSourceRequestedRef modelRef].
    destruct (modelRef s); exact Hs.
  - unfold on_sessionend. cbn [log setIsARSessionActive modelRef markerRef].
    destruct (modelRef s);
      cbn [log setIsARSessionActive with_modelRef modelRef markerRef];
      destruct (markerRef s); exact Hs.
  - destruct (animationLoop_refs time frame p s) as (_ & _ & Herr & _).
    rewrite Herr. exact Hs.
  - apply (startARSession_stable (fun s' => errorMessage s' <> ""));
      intros; assumption.
Qed.

Lemma run_error_kept (evs : list Event) (s : State) :
  errorMessage s <> "" -> errorMessage (run evs s) <> "".
Proof.
  revert s. induction evs as [|e evs IH]; intros s Hs; [exact Hs|].
  cbn [run fold_left]. apply IH, step_error_kept, Hs.
Qed.

Lemma errorBox_shown (c : Component) :
  errorBox (render c) <> None <-> errorMessage (refs c) <> "".
Proof.
  unfold render. cbn [errorBox].
  destruct (String.eqb_spec (errorMessage (refs c)) "") as [Heq|Hne].
  - split; intros H; contradiction.
  - split; intros _; [exact Hne | discriminate].
Qed.

(** X6. No handler clears the error message: once the message box is shown
    it is shown after every further run of events, a later successful start
    included. *)
Theorem error_box_never_cleared (evs : list Event) (c : Component) :
  errorBox (render c) <> None ->
  errorBox (render (component_run evs c)) <> None.
Proof.
  rewrite !errorBox_shown. cbn [component_run refs]. apply run_error_kept.
Qed.

(** A first start on a platform without reference spaces, then a start on
    one that grants everything and a whole session. *)
Lemma error_box_never_cleared_witness :
  errorBox (render (component_run
                      [EvStartAR arNavigator; EvSessionStart; EvSessionEnd]
                      (component_step (EvStartAR noSpaceNavigator) mounted)))
  <> None.
Proof.
  apply error_box_never_cleared. vm_compute. discriminate.
Defined.

Lemma step_refs_kept (e : Event) (s : State) :
  (referenceSpaceRef s <> None -> referenceSpaceRef (step e s) <> None)
  /\ (hitTestSourceRef s <> None -> hitTestSourceRef (step e s) <> None).
Proof.
  destruct e as [| | |time frame p|navigator]; cbn [step].
  - unfold onSelect. cbn [log modelRef markerRef].
    destruct (modelRef s), (markerRef s) as [marker|];
      try destruct (Object3D.visible marker); split; intros H; exact H.
  - unfold on_sessionstart.
    cbn [log setIsARSessionActive with_hitTestSourceRequestedRef modelRef].
    destruct (modelRef s); split; intros H; exact H.
  - unfold on_sessionend. cbn [log setIsARSessionActive modelRef markerRef].
    destruct (modelRef s);
      cbn [log setIsARSessionActive with_modelRef modelRef markerRef];
      destruct (markerRef s); split; intros H; exact H.
  - destruct (animationLoop_refs time frame p s) as (Hsource & Hspace & _).
    rewrite Hsource, Hspace. split; intros H; exact H.
  - split.
    + apply (startARSession_stable (fun s' => referenceSpaceRef s' <> None));
        try (intros; assumption).
      intros; discriminate.
    + apply (startARSession_stable (fun s' => hitTestSourceRef s' <> None));
        try (intros; assumption).
      intros; discriminate.
Qed.

(** X7. No handler resets the reference-space ref or the hit-test source
    ref to null: once set they stay set through every run of events, the
    end of the session included. *)
Theorem session_refs_never_released (evs : list Event) (s : State) :
  (referenceSpaceRef s <> None -> referenceSpaceRef (run evs s) <> None)
  /\ (hitTestSourceRef s <> None -> hitTestSourceRef (run evs s) <> None).
Proof.
  revert s. induction evs as [|e evs IH]; intros s;
    [split; intros H; exact H|].
  cbn [run fold_left]. destruct (IH (step e s)) as [IHr IHh].
  destruct (step_refs_kept e s) as [Hr Hh].
  split; intros H; [apply IHr, Hr, H | apply IHh, Hh, H].
Qed.

(** A session that ends, followed by frames outside any session. *)
Lemma session_refs_never_released_witness :
  referenceSpaceRef
    (run [EvSessionEnd; EvFrame 0 None stillPulse; EvSelect] aiming) <> None
  /\ hitTestSourceRef
       (run [EvSessionEnd; EvFrame 0 None stillPulse; EvSelect] aiming) <> None.
Proof.
  pose proof (session_refs_never_released
                [EvSessionEnd; EvFrame 0 None stillPulse; EvSelect] aiming)
    as [Hr Hh].
  split; [apply Hr | apply Hh]; vm_compute; discriminate.
Defined.

(** ** Edge cases of the frame handler *)

(** X8. A frame changes nothing at all when hit testing is not set up (no
    hit-test source, no marker or no reference space), and also when the
    first hit-test result has no pose in the reference space: the marker
    then keeps the visibility and the matrix of the frame before. *)
Theorem onXRFrame_untouched
    (time : float) (frame : XRFrame) (p : Pulse) (s : State) :
  hitTestSourceRef s = None \/ markerRef s = None \/ referenceSpaceRef s = None
  \/ (exists source space hit rest,
        hitTestSourceRef s = Some source
        /\ referenceSpaceRef s = Some space
        /\ getHitTestResults frame source = hit :: rest
        /\ getPose hit space = None) ->
  onXRFrame time frame p s = s.
Proof.
  unfold onXRFrame.
  intros [H|[H|[H|(source & space & hit & rest & Hs & Hsp & Hr & Hp)]]].
  - rewrite H. reflexivity.
  - rewrite H. destruct (hitTestSourceRef s); reflexivity.
  - rewrite H. destruct (hitTestSourceRef s), (markerRef s); reflexivity.
  - rewrite Hs, Hsp. destruct (markerRef s); [|reflexivity].
    rewrite Hr, Hp. reflexivity.
Qed.

(** A frame before any session was started, with results on offer. *)
Lemma onXRFrame_untouched_witness :
  onXRFrame 0 surfaceFrame stillPulse loaded = loaded.
Proof.
  apply onXRFrame_untouched. left. reflexivity.
Defined.

(** X9. Only the first hit-test result counts: two frames whose result
    lists start with the same result leave the same state, whatever the
    later results and the frame times are. *)
Theorem onXRFrame_first_result_only
    (time time' : float) (frame frame' : XRFrame) (p : Pulse) (s : State) :
  (forall source,
      head (getHitTestResults frame source)
      = head (getHitTestResults frame' source)) ->
  onXRFrame time frame p s = onXRFrame time' frame' p s.
Proof.
  intros Hhead. unfold onXRFrame.
  destruct (hitTestSourceRef s) as [source|]; [|reflexivity].
  destruct (markerRef s) as [marker|]; [|reflexivity].
  destruct (referenceSpaceRef s) as [space|]; [|reflexivity].
  specialize (Hhead source).
  destruct (getHitTestResults frame source) as [|hit rest],
    (getHitTestResults frame' source) as [|hit' rest'];
    cbn in Hhead; try discriminate Hhead; [reflexivity|].
  injection Hhead as <-. reflexivity.
Qed.

(** X10. With hit testing set up, a marker that shows after a frame means
    that the frame's query returned at least one result; and a marker that
    was hidden before the frame shows after it only if the first result had
    a pose. *)
Theorem onXRFrame_visible_has_result
    (time : float) (frame : XRFrame) (p : Pulse) (s : State)
    (source : XRHitTestSource) (marker : Object3D.t) (space : XRReferenceSpace) :
  hitTestSourceRef s = Some source ->
  markerRef s = Some marker ->
  referenceSpaceRef s = Some space ->
  marker_visible (onXRFrame time frame p s) = true ->
  getHitTestResults frame source <> []
  /\ (Object3D.visible marker = false ->
      exists hit rest pose,
        getHitTestResults frame source = hit :: rest
        /\ getPose hit space = Some pose).
Proof.
  intros Hsource Hmarker Hspace. unfold onXRFrame.
  rewrite Hsource, Hmarker, Hspace.
  destruct (getHitTestResults frame source) as [|hit rest].
  - cbn. discriminate.
  - intros Hvis. split; [discriminate|]. intros Hhidden.
    destruct (getPose hit space) as [pose|] eqn:Hpose;
      [exists hit, rest, pose; split; [reflexivity|exact Hpose]|].
    unfold marker_visible in Hvis. rewrite Hmarker, Hhidden in Hvis.
    discriminate Hvis.
Qed.

(** The marker showing after the surface frame. *)
Lemma onXRFrame_visible_has_result_witness :
  getHitTestResults surfaceFrame {| source_space := floorSpace |} <> [].
Proof.
  refine (proj1 (onXRFrame_visible_has_result 0 surfaceFrame stillPulse
                   tracking {| source_space := floorSpace |} markerGroup
                   floorSpace eq_refl eq_refl eq_refl _)).
  vm_compute. reflexivity.
Defined.

(** X11. A frame writes the marker and nothing else: putting the old
    marker back gives the state before the frame, so the model, the refs,
    the messages and the session flag are out of its reach. *)
Theorem onXRFrame_changes_only_marker
    (time : float) (frame : XRFrame) (p : Pulse) (s : State) :
  with_markerRef (onXRFrame time frame p s) (markerRef s) = s.
Proof.
  unfold onXRFrame.
  destruct (hitTestSourceRef s) as [source|]; [|apply with_markerRef_same].
  destruct (markerRef s) as [marker|] eqn:Hmarker;
    [|rewrite <- Hmarker; apply with_markerRef_same].
  destruct (referenceSpaceRef s) as [space|];
    [|rewrite <- Hmarker; apply with_markerRef_same].
  destruct (getHitTestResults frame source) as [|hit rest].
  - rewrite with_markerRef_twice, <- Hmarker. apply with_markerRef_same.
  - destruct (getPose hit space) as [pose|];
      [|rewrite <- Hmarker; apply with_markerRef_same].
    unfold pulseAnimation. cbn [with_markerRef markerRef].
    rewrite <- Hmarker. destruct s. reflexivity.
Qed.

Lemma pulse_child_twice (opacity : float) (child : Child) :
  pulse_child opacity (pulse_child opacity child) = pulse_child opacity child.
Proof. destruct child as [[o|]|m]; reflexivity. Qed.

(** X12. The pulse sets the marker's scale to 1 + sin * 0.1 on all three
    axes and the opacity of every mesh with a basic material to
    0.5 + sin * 0.2, both computed from the clock readings alone, so
    running it again with the same readings changes nothing: the animation
    cannot drift.  It keeps the number of children, leaves every child that
    is not a mesh with a basic material as it is, and does not touch the
    marker's position, orientation, matrix or visibility. *)
Theorem pulseAnimation_absolute (p : Pulse) (s : State) :
  pulseAnimation p (pulseAnimation p s) = pulseAnimation p s
  /\ (forall marker,
         markerRef s = Some marker ->
         exists marker',
           markerRef (pulseAnimation p s) = Some marker'
           /\ Object3D.scale marker'
              = Vector3.mk (1 + sin_scale p * 0.1)%float
                  (1 + sin_scale p * 0.1)%float (1 + sin_scale p * 0.1)%float
           /\ (forall o,
                  In (Mesh (MeshBasicMaterial o)) (Object3D.children marker) ->
                  In (Mesh (MeshBasicMaterial (0.5 + sin_opacity p * 0.2)%float))
                    (Object3D.children marker'))
           /\ (forall o,
                  In (Mesh (MeshBasicMaterial o)) (Object3D.children marker') ->
                  o = (0.5 + sin_opacity p * 0.2)%float)
           /\ length (Object3D.children marker')
              = length (Object3D.children marker)
           /\ (forall child,
                  In child (Object3D.children marker) ->
                  (forall o, child <> Mesh (MeshBasicMaterial o)) ->
                  In child (Object3D.children marker'))
           /\ Object3D.position marker' = Object3D.position marker
           /\ Object3D.quaternion marker' = Object3D.quaternion marker
           /\ Object3D.matrix marker' = Object3D.matrix marker
           /\ Object3D.visible marker' = Object3D.visible marker).
Proof.
  split.
  - unfold pulseAnimation. destruct (markerRef s) as [marker|] eqn:Hmarker;
      [|rewrite Hmarker; reflexivity].
    cbn [with_markerRef markerRef Object3D.with_children Object3D.with_scale
         Object3D.children Object3D.scale Object3D.position
         Object3D.quaternion Object3D.matrix Object3D.visible Vector3.set].
    rewrite map_map.
    rewrite (map_ext _ _ (pulse_child_twice _)). reflexivity.
  - intros marker Hmarker. unfold pulseAnimation. rewrite Hmarker.
    cbn [with_markerRef markerRef]. eexists. split; [reflexivity|].
    cbn [Object3D.with_children Object3D.with_scale Object3D.children
         Object3D.scale Object3D.position Object3D.quaternion
         Object3D.matrix Object3D.visible Vector3.set].
    split; [reflexivity|]. split; [|split; [|split; [|split]]].
    + intros o Hin. apply in_map_iff.
      exists (Mesh (MeshBasicMaterial o)). split; [reflexivity|exact Hin].
    + intros o Hin. apply in_map_iff in Hin as (child & Heq & _).
      destruct child as [[o0|]|m]; cbn in Heq; congruence.
    + apply length_map.
    + intros child Hin Hother. apply in_map_iff. exists child.
      split; [|exact Hin].
      destruct child as [[o|]|m]; try reflexivity.
      exfalso. exact (Hother o eq_refl).
    + repeat split.
Qed.

(** The marker group of the mounted component under a pulse with both
    readings at a half. *)
Lemma pulseAnimation_absolute_witness :
  exists marker',
    markerRef (pulseAnimation {| sin_scale := 0.5; sin_opacity := 0.5 |} mount)
    = Some marker'
    /\ Object3D.scale marker' = Vector3.mk 1.05 1.05 1.05
    /\ In (Mesh (MeshBasicMaterial 0.6)) (Object3D.children marker')
    /\ In (LineSegments LineBasicMaterial) (Object3D.children marker').
Proof.
  destruct (proj2 (pulseAnimation_absolute
                     {| sin_scale := 0.5; sin_opacity := 0.5 |} mount)
              markerGroup eq_refl)
    as (marker' & Hm & Hscale & Hmesh & _ & _ & Hother & _).
  exists marker'. split; [exact Hm|]. split; [exact Hscale|]. split.
  - apply (Hmesh 0.7%float). left. reflexivity.
  - apply Hother; [right; left; reflexivity | intros o; discriminate].
Defined.

(** A frame with a second result behind the surface hit. *)
Lemma onXRFrame_first_result_only_witness :
  onXRFrame 0 surfaceFrame stillPulse tracking
  = onXRFrame 16 {| getHitTestResults := fun _ => [surfaceHit; surfaceHit] |}
      stillPulse tracking.
Proof.
  apply onXRFrame_first_result_only. intros source. reflexivity.
Defined.

Lemma step_without_source (e : Event) (s : State) :
  is_start e = false ->
  hitTestSourceRef s = None ->
  marker_visible s = false ->
  hitTestSourceRef (step e s) = None /\ marker_visible (step e s) = false.
Proof.
  intros He Hsource Hvis. unfold marker_visible in *.
  destruct e as [| | |time frame p|navigator]; cbn [step];
    [| | | |discriminate He].
  - rewrite onSelect_skips
      by (right; unfold marker_visible; exact Hvis).
    cbn [log hitTestSourceRef markerRef]. split; assumption.
  - unfold on_sessionstart.
    cbn [log setIsARSessionActive with_hitTestSourceRequestedRef modelRef].
    destruct (modelRef s); cbn; split; assumption.
  - unfold on_sessionend. cbn [log setIsARSessionActive modelRef markerRef].
    destruct (modelRef s);
      cbn [log setIsARSessionActive with_modelRef modelRef markerRef];
      destruct (markerRef s) eqn:Hmarker; cbn; rewrite ?Hmarker;
      split; auto.
  - destruct (animationLoop_refs time frame p s) as (Hsrc & _).
    split; [rewrite Hsrc; exact Hsource|].
    fold (marker_visible (animationLoop time frame p s)).
    fold (marker_visible s) in Hvis.
    unfold animationLoop.
    rewrite (proj2 (renderer_render_marker _)).
    destruct frame as [frame|]; [|exact Hvis].
    unfold onXRFrame. rewrite Hsource. exact Hvis.
Qed.

(** X13. Without a hit-test source (hit testing unsupported or its request
    rejected) the marker never shows: through every run of selects, session
    events and frames it stays hidden and the source stays unset, so no
    select of such a run can place the model. *)
Theorem marker_hidden_without_hit_test (evs : list Event) (s : State) :
  forallb (fun e => negb (is_start e)) evs = true ->
  hitTestSourceRef s = None ->
  marker_visible s = false ->
  hitTestSourceRef (run evs s) = None
  /\ marker_visible (run evs s) = false
  /\ onSelect (run evs s)
     = log "Cannot place model:" (log "Selection event triggered" (run evs s)).
Proof.
  revert s. induction evs as [|e evs IH]; intros s Hevs Hsource Hvis.
  - cbn [run fold_left]. repeat split; try assumption.
    apply onSelect_skips. right. exact Hvis.
  - cbn [forallb] in Hevs. apply andb_prop in Hevs as [He Hevs].
    apply negb_true_iff in He.
    destruct (step_without_source e s He Hsource Hvis) as [Hs' Hv'].
    cbn [run fold_left]. exact (IH (step e s) Hevs Hs' Hv').
Qed.

(** A session on the platform that rejects hit testing: frames with hits
    and taps. *)
Lemma marker_hidden_without_hit_test_witness :
  marker_visible
    (run [EvSessionStart; EvFrame 0 (Some surfaceFrame) stillPulse; EvSelect]
       (startARSession noHitTestNavigator loaded)) = false.
Proof.
  refine (proj1 (proj2 (marker_hidden_without_hit_test
            [EvSessionStart; EvFrame 0 (Some surfaceFrame) stillPulse; EvSelect]
            (startARSession noHitTestNavigator loaded) _ _ _)));
    vm_compute; reflexivity.
Defined.

(** ** Selection and the model *)

(** X14. A second tap in the same state changes nothing more: the model
    is put at the marker's position raised once by 0.05, not raised again,
    and the marker is never touched by a select. *)
Theorem onSelect_idempotent (s : State) :
  modelRef (onSelect (onSelect s)) = modelRef (onSelect s)
  /\ markerRef (onSelect s) = markerRef s.
Proof.
  destruct (modelRef s) as [model|] eqn:Hmodel.
  2: { rewrite (onSelect_skips s) by (left; exact Hmodel).
       rewrite onSelect_skips by (left; exact Hmodel). split; reflexivity. }
  destruct (marker_visible s) eqn:Hvis.
  2: { rewrite (onSelect_skips s) by (right; exact Hvis).
       rewrite onSelect_skips by (right; exact Hvis). split; reflexivity. }
  unfold marker_visible in Hvis.
  destruct (markerRef s) as [marker|] eqn:Hmarker; [|discriminate Hvis].
  assert (Hmk : markerRef (onSelect s) = Some marker).
  { unfold onSelect. cbn [log modelRef markerRef].
    rewrite Hmodel, Hmarker, Hvis. cbn. exact Hmarker. }
  split; [|exact Hmk].
  destruct (onSelect_places s model marker Hmodel Hmarker Hvis)
    as (m1 & Hm1 & Hp1 & Hq1 & Hv1 & Hs1).
  assert (Hrest : Object3D.matrix m1 = Object3D.matrix model
                  /\ Object3D.children m1 = Object3D.children model).
  { revert Hm1. unfold onSelect. cbn [log modelRef markerRef].
    rewrite Hmodel, Hmarker, Hvis. cbn. intros [= <-]. split; reflexivity. }
  destruct Hrest as [Hmat1 Hch1].
  destruct (onSelect_places (onSelect s) m1 marker Hm1 Hmk Hvis)
    as (m2 & Hm2 & Hp2 & Hq2 & Hv2 & Hs2).
  assert (Hrest : Object3D.matrix m2 = Object3D.matrix m1
                  /\ Object3D.children m2 = Object3D.children m1).
  { revert Hm2. generalize (onSelect s) Hm1 Hmk. intros s1 Hm1' Hmk'.
    unfold onSelect. cbn [log modelRef markerRef].
    rewrite Hm1', Hmk', Hvis. cbn. intros [= <-]. split; reflexivity. }
  destruct Hrest as [Hmat2 Hch2].
  rewrite Hm2, Hm1. f_equal.
  destruct m1, m2. cbn in *. congruence.
Qed.

Lemma step_model_scale (e : Event) (s : State) :
  model_scale (step e s) = model_scale s.
Proof.
  unfold model_scale.
  destruct e as [| | |time frame p|navigator]; cbn [step].
  - unfold onSelect. cbn [log modelRef markerRef].
    destruct (modelRef s) as [model|] eqn:Hmodel,
      (markerRef s) as [marker|];
      try destruct (Object3D.visible marker); cbn; rewrite ?Hmodel;
      reflexivity.
  - unfold on_sessionstart.
    cbn [log setIsARSessionActive with_hitTestSourceRequestedRef modelRef].
    destruct (modelRef s) as [model|] eqn:Hmodel; cbn; rewrite ?Hmodel;
      reflexivity.
  - unfold on_sessionend. cbn [log setIsARSessionActive modelRef markerRef].
    destruct (modelRef s) as [model|] eqn:Hmodel;
      cbn [log setIsARSessionActive with_modelRef modelRef markerRef];
      destruct (markerRef s); cbn; rewrite ?Hmodel; reflexivity.
  - rewrite animationLoop_model. destruct (modelRef s); reflexivity.
  - pose proof (startARSession_scene navigator s) as H.
    unfold scene in H. injection H as H _. rewrite H. reflexivity.
Qed.

Lemma run_model_scale (evs : list Event) (s : State) :
  model_scale (run evs s) = model_scale s.
Proof.
  revert s. induction evs as [|e evs IH]; intros s; [reflexivity|].
  cbn [run fold_left]. change (model_scale (run evs (step e s)) = model_scale s).
  rewrite IH. apply step_model_scale.
Qed.

(** X15. No event rescales the model or unloads it: after every run of
    events the model is still loaded, with the scale it had before (the 0.1
    it was given when loaded). *)
Theorem model_scale_invariant (evs : list Event) (s : State)
    (model : Object3D.t) :
  modelRef s = Some model ->
  exists model',
    modelRef (run evs s) = Some model'
    /\ Object3D.scale model' = Object3D.scale model.
Proof.
  intros Hmodel. pose proof (run_model_scale evs s) as H.
  unfold model_scale in H. rewrite Hmodel in H.
  destruct (modelRef (run evs s)) as [model'|]; [|discriminate H].
  exists model'. split; [reflexivity|]. congruence.
Qed.

(** The scale after a session with a placement. *)
Lemma model_scale_invariant_witness :
  exists model',
    modelRef (run [EvFrame 0 (Some surfaceFrame) stillPulse; EvSelect;
                   EvSessionEnd] tracking) = Some model'
    /\ Object3D.scale model' = Vector3.mk 0.1 0.1 0.1.
Proof.
  refine (model_scale_invariant _ tracking trackingModel _).
  vm_compute. reflexivity.
Defined.

Lemma sessionend_resets_model_parts (s : State) (model : Object3D.t) :
  modelRef s = Some model ->
  exists model',
    modelRef (on_sessionend s) = Some model'
    /\ Object3D.visible model' = true
    /\ Object3D.position model' = Vector3.mk 0 0 (-0.5)
    /\ Object3D.quaternion model' = Quaternion.identity
    /\ marker_visible (on_sessionend s) = false
    /\ isARSessionActive (on_sessionend s) = false.
Proof.
  intros Hmodel. unfold on_sessionend, marker_visible.
  cbn [log setIsARSessionActive modelRef markerRef]. rewrite Hmodel.
  cbn [log setIsARSessionActive with_modelRef modelRef markerRef].
  destruct (markerRef s) as [marker|] eqn:Hmarker;
    cbn [with_markerRef with_modelRef modelRef markerRef];
    (eexists; split; [reflexivity|]);
    cbn; rewrite ?Hmarker, zero_rotation_identity; repeat split.
Qed.

(** X16. Whatever happened during a session, its end puts a loaded model
    back: after any run of events followed by the session-end event the
    model is visible at (0, 0, -0.5) with the identity orientation, and the
    marker is hidden. *)
Theorem sessionend_after_any_run (evs : list Event) (s : State)
    (model : Object3D.t) :
  modelRef s = Some model ->
  placement (run (evs ++ [EvSessionEnd]) s)
  = Some (Vector3.mk 0 0 (-0.5), Quaternion.identity)
  /\ model_hidden (run (evs ++ [EvSessionEnd]) s) = false
  /\ marker_visible (run (evs ++ [EvSessionEnd]) s) = false
  /\ isARSessionActive (run (evs ++ [EvSessionEnd]) s) = false.
Proof.
  intros Hmodel. unfold run. rewrite fold_left_app. cbn [fold_left step].
  fold (run evs s).
  pose proof (run_model_scale evs s) as H.
  unfold model_scale in H. rewrite Hmodel in H.
  destruct (modelRef (run evs s)) as [model'|] eqn:Hm'; [|discriminate H].
  destruct (sessionend_resets_model_parts (run evs s) model' Hm')
    as (m2 & Hm2 & Hv & Hp & Hq & Hmk & Hact).
  unfold placement, model_hidden. rewrite Hm2, Hv, Hp, Hq.
  repeat split; assumption.
Qed.

(** A session with a placement, then its end. *)
Lemma sessionend_after_any_run_witness :
  placement (run ([EvFrame 0 (Some surfaceFrame) stillPulse; EvSelect]
                  ++ [EvSessionEnd]) tracking)
  = Some (Vector3.mk 0 0 (-0.5), Quaternion.identity).
Proof.
  refine (proj1 (sessionend_after_any_run
                   [EvFrame 0 (Some surfaceFrame) stillPulse; EvSelect]
                   tracking trackingModel _)).
  vm_compute. reflexivity.
Defined.

(** X17. The session-start listener hides only a model that is already
    loaded.  A model whose loading ends after the session has started is
    shown at once, at its centred preview position and scale 0.1, without
    any select; the session stays active. *)
Theorem onLoad_during_session
    (gltf : Object3D.t) (center : Vector3.t) (s : State) :
  modelRef s = None ->
  model_hidden (on_sessionstart s) = false
  /\ isARSessionActive (onLoad gltf center (on_sessionstart s)) = true
  /\ exists model,
       modelRef (onLoad gltf center (on_sessionstart s)) = Some model
       /\ Object3D.visible model = true
       /\ Object3D.position model = Vector3.sub (Vector3.mk 0 0 0) center
       /\ Object3D.scale model = Vector3.mk 0.1 0.1 0.1.
Proof.
  intros Hmodel. destruct s as [rr mo mk hs hr rs em act co ca].
  cbn [modelRef] in Hmodel. subst mo.
  split; [reflexivity|]. split; [reflexivity|].
  eexists. split; [reflexivity|]. repeat split.
Qed.

(** The session starts on the freshly mounted component. *)
Lemma onLoad_during_session_witness :
  isARSessionActive
    (onLoad Object3D.create Vector3.zero (on_sessionstart mount)) = true.
Proof.
  exact (proj1 (proj2 (onLoad_during_session Object3D.create Vector3.zero
                         mount eq_refl))).
Defined.

(** ** The rendered controls *)

Lemma step_session_flag (e : Event) (s : State) :
  is_session_event e = false ->
  isARSessionActive (step e s) = isARSessionActive s.
Proof.
  intros He. destruct e as [| | |time frame p|navigator]; cbn [step];
    try discriminate He.
  - unfold onSelect. cbn [log modelRef markerRef].
    destruct (modelRef s), (markerRef s) as [marker|];
      try destruct (Object3D.visible marker); reflexivity.
  - exact (proj1 (proj2 (proj2 (proj2 (animationLoop_refs time frame p s))))).
  - apply (startARSession_keeps_view isARSessionActive); intros; reflexivity.
Qed.

Lemma run_session_flag (evs : list Event) (s : State) :
  forallb (fun e => negb (is_session_event e)) evs = true ->
  isARSessionActive (run evs s) = isARSessionActive s.
Proof.
  revert s. induction evs as [|e evs IH]; intros s Hevs; [reflexivity|].
  cbn [forallb] in Hevs. apply andb_prop in Hevs as [He Hevs].
  apply negb_true_iff in He. cbn [run fold_left].
  change (isARSessionActive (run evs (step e s)) = isARSessionActive s).
  rewrite (IH _ Hevs). apply step_session_flag, He.
Qed.

Lemma run_app (evs evs' : list Event) (s : State) :
  run (evs ++ evs') s = run evs' (run evs s).
Proof. apply fold_left_app. Qed.

(** X18. The start button follows the session events and nothing else:
    on a supported device it reads "Stop AR" and calls [stopARSession]
    exactly from the last session-start event on, and reads "Start AR" and
    calls [startARSession] from the last session-end event on, whatever
    taps, frames and start presses come in between. *)
Theorem button_follows_session
    (pre post : list Event) (c : Component) :
  isARSupported c = true ->
  forallb (fun e => negb (is_session_event e)) post = true ->
  startButton (render (component_run (pre ++ EvSessionStart :: post) c))
  = Some {| onClick := ClickStopAR; variant := "destructive";
            label := "Stop AR" |}
  /\ startButton (render (component_run (pre ++ EvSessionEnd :: post) c))
     = Some {| onClick := ClickStartAR; variant := "default";
               label := "Start AR" |}.
Proof.
  intros Hsup Hpost. unfold render, component_run.
  cbn [startButton isARSupported refs]. rewrite Hsup.
  rewrite !run_app.
  change (run (EvSessionStart :: post) (run pre (refs c)))
    with (run post (on_sessionstart (run pre (refs c)))).
  change (run (EvSessionEnd :: post) (run pre (refs c)))
    with (run post (on_sessionend (run pre (refs c)))).
  rewrite !(run_session_flag post) by exact Hpost.
  assert (Hstart : forall s, isARSessionActive (on_sessionstart s) = true).
  { intros s. unfold on_sessionstart.
    cbn [log setIsARSessionActive with_hitTestSourceRequestedRef modelRef].
    destruct (modelRef s); reflexivity. }
  assert (Hend : forall s, isARSessionActive (on_sessionend s) = false).
  { intros s. unfold on_sessionend.
    cbn [log setIsARSessionActive modelRef markerRef].
    destruct (modelRef s);
      cbn [log setIsARSessionActive with_modelRef modelRef markerRef];
      destruct (markerRef s); reflexivity. }
  rewrite Hstart, Hend. split; reflexivity.
Qed.

(** A supported device: a start press and a session start, then a frame
    and a tap. *)
Lemma button_follows_session_witness :
  startButton
    (render (component_run
               ([EvStartAR arNavigator] ++ EvSessionStart
                :: [EvFrame 0 (Some surfaceFrame) stillPulse; EvSelect])
               (checkSupport (SupportResolved true) mounted)))
  = Some {| onClick := ClickStopAR; variant := "destructive";
            label := "Stop AR" |}.
Proof.
  exact (proj1 (button_follows_session [EvStartAR arNavigator]
                  [EvFrame 0 (Some surfaceFrame) stillPulse; EvSelect]
                  (checkSupport (SupportResolved true) mounted)
                  eq_refl eq_refl)).
Defined.

(** X19. The support check decides the controls.  A device reported as
    unsupported gets no start button and the message that AR is not
    supported.  On the freshly mounted component the start button is
    rendered exactly when the check resolved with true, and every other
    outcome except an undefined [navigator.xr] shows an error message. *)
Theorem checkSupport_controls (probe : SupportProbe) (c : Component) :
  (probe = SupportResolved false ->
   startButton (render (checkSupport probe c)) = None
   /\ errorBox (render (checkSupport probe c))
      = Some "AR is not supported on your device. Please try on a mobile device with AR support.")
  /\ (startButton (render (checkSupport probe mounted)) <> None
      <-> probe = SupportResolved true)
  /\ (probe <> SupportResolved true -> probe <> XRUndefined ->
      errorBox (render (checkSupport probe c)) <> None).
Proof.
  split; [intros ->; split; reflexivity|]. split.
  - destruct probe as [| |[|]|]; cbn; split; intros H;
      try reflexivity; try discriminate H; try (exfalso; apply H; reflexivity).
    discriminate.
  - intros Htrue Hundef.
    destruct probe as [| |[|]|]; cbn; try discriminate;
      exfalso; [apply Hundef|apply Htrue]; reflexivity.
Qed.

(** The three judgements on the freshly mounted component. *)
Lemma checkSupport_controls_witness :
  startButton (render (checkSupport (SupportResolved false) mounted)) = None
  /\ startButton (render (checkSupport (SupportResolved true) mounted)) <> None
  /\ errorBox (render (checkSupport NoXRProperty mounted)) <> None.
Proof.
  split; [|split].
  - exact (proj1 (proj1 (checkSupport_controls (SupportResolved false) mounted)
                    eq_refl)).
  - exact (proj2 (proj1 (proj2 (checkSupport_controls (SupportResolved true)
                                  mounted))) eq_refl).
  - refine (proj2 (proj2 (checkSupport_controls NoXRProperty mounted)) _ _);
      discriminate.
Defined.

(** ** More on the certificate script *)

Section GenerateCertRuns.
Import GenerateCert.

Variable openssl : Command -> bool.

(** The four ways the [try] block can go, with the world each leaves. *)
Lemma generate_cases (dir : Path) (w : World) :
  let key := path_join dir ["key.pem"] in
  let csr := path_join dir ["csr.pem"] in
  let cert := path_join dir ["cert.pem"] in
  let c1 := genrsa key 2048 in
  let c2 := req key csr "/CN=localhost" in
  let c3 := x509 365 csr key cert in
  (openssl c1 = false
   /\ generate openssl dir w = (Throw "Command failed", tried c1 w))
  \/ (openssl c1 = true /\ openssl c2 = false
      /\ generate openssl dir w = (Throw "Command failed", tried c2 (ran c1 w)))
  \/ (openssl c1 = true /\ openssl c2 = true /\ openssl c3 = false
      /\ generate openssl dir w
         = (Throw "Command failed", tried c3 (ran c2 (ran c1 w))))
  \/ (openssl c1 = true /\ openssl c2 = true /\ openssl c3 = true
      /\ generate openssl dir w
         = (Ok tt,
            console_log "SSL certificates generated successfully!"
              (unlinked csr (ran c3 (ran c2 (ran c1 w)))))).
Proof.
  intros key csr cert c1 c2 c3. unfold generate.
  fold key csr cert. fold c1 c2 c3.
  assert (Hfail : forall c w0, openssl c = false ->
                    execSync openssl c w0 = (Throw "Command failed", tried c w0)).
  { intros c w0 Hc. unfold execSync. rewrite Hc. reflexivity. }
  destruct (openssl c1) eqn:H1.
  2: { left. split; [reflexivity|].
       apply bind_throw, Hfail, H1. }
  right. rewrite (bind_ok _ _ _ _ _ (execSync_ok _ _ _ H1)).
  destruct (openssl c2) eqn:H2.
  2: { left. split; [reflexivity|]. split; [reflexivity|].
       apply bind_throw, Hfail, H2. }
  right. rewrite (bind_ok _ _ _ _ _ (execSync_ok _ _ _ H2)).
  destruct (openssl c3) eqn:H3.
  2: { left. repeat (split; [reflexivity|]).
       apply bind_throw, Hfail, H3. }
  right. rewrite (bind_ok _ _ _ _ _ (execSync_ok _ _ _ H3)).
  repeat (split; [reflexivity|]).
  unfold bind, unlinkSync, act.
  rewrite bool_decide_true; [reflexivity|].
  unfold ran at 1. cbn [files]. apply elem_of_union_r.
  unfold ran at 1. cbn [files]. apply elem_of_union_l.
  apply elem_of_singleton. reflexivity.
Qed.

Lemma main_unfold (p : Process) (w : World) :
  main p openssl w
  = match generate openssl (certsDir p) (prepared p w) with
    | (Ok _, w') => (0, w')
    | (Throw _, w') => (1, console_log "Error generating certificates:" w')
    end.
Proof. reflexivity. Qed.

Lemma prepared_parts (p : Process) (w : World) :
  files (prepared p w) = files w
  /\ stdio (prepared p w) = stdio w
  /\ dirs (prepared p w)
     = (if existsSync (certsDir p) w then dirs w
        else {[ certsDir p ]} ∪ dirs w)
  /\ existsSync (certsDir p) (prepared p w) = true.
Proof.
  unfold prepared. destruct (existsSync (certsDir p) w) eqn:Hex.
  - repeat split. exact Hex.
  - repeat split. unfold existsSync, mkdirSync. cbn [dirs files].
    rewrite bool_decide_true by (apply elem_of_union_l, elem_of_singleton;
                                 reflexivity).
    reflexivity.
Qed.
End GenerateCertRuns.

Section GenerateCertProperties.
Import GenerateCert.

Lemma main_cases (p : Process) (openssl : Command -> bool) (w : World) :
  let key := path_join (certsDir p) ["key.pem"] in
  let csr := path_join (certsDir p) ["csr.pem"] in
  let cert := path_join (certsDir p) ["cert.pem"] in
  let c1 := genrsa key 2048 in
  let c2 := req key csr "/CN=localhost" in
  let c3 := x509 365 csr key cert in
  let failed := console_log "Error generating certificates:" in
  (openssl c1 = false
   /\ main p openssl w = (1, failed (tried c1 (prepared p w))))
  \/ (openssl c1 = true /\ openssl c2 = false
      /\ main p openssl w = (1, failed (tried c2 (ran c1 (prepared p w)))))
  \/ (openssl c1 = true /\ openssl c2 = true /\ openssl c3 = false
      /\ main p openssl w
         = (1, failed (tried c3 (ran c2 (ran c1 (prepared p w))))))
  \/ (openssl c1 = true /\ openssl c2 = true /\ openssl c3 = true
      /\ main p openssl w
         = (0, console_log "SSL certificates generated successfully!"
                 (unlinked csr (ran c3 (ran c2 (ran c1 (prepared p w))))))).
Proof.
  cbv zeta. rewrite main_unfold.
  destruct (generate_cases openssl (certsDir p) (prepared p w))
    as [(H1 & ->)|[(H1 & H2 & ->)|[(H1 & H2 & H3 & ->)|(H1 & H2 & H3 & ->)]]];
    auto 10.
Qed.

Lemma csr_is_no_dir (dir : Path) : dir <> path_join dir ["csr.pem"].
Proof.
  rewrite path_join_file by reflexivity. intros H.
  apply (f_equal (@length string)) in H. rewrite length_app in H.
  cbn in H. lia.
Qed.

(** X20. The first failing command ends the run with status 1: no later
    command is started and nothing is removed.  The files of the commands
    that had succeeded stay; in particular, when signing the certificate
    fails, the private key and the certificate request are left behind. *)
Theorem generate_cert_stops_at_first_failure
    (p : Process) (openssl : Command -> bool) (w : World) :
  let key := path_join (certsDir p) ["key.pem"] in
  let csr := path_join (certsDir p) ["csr.pem"] in
  let cert := path_join (certsDir p) ["cert.pem"] in
  let c1 := genrsa key 2048 in
  let c2 := req key csr "/CN=localhost" in
  let c3 := x509 365 csr key cert in
  (openssl c1 = false ->
   fst (main p openssl w) = 1
   /\ effects (snd (main p openssl w))
      = (effects (prepared p w) ++ [Exec c1])%list
   /\ files (snd (main p openssl w)) = files w)
  /\ (openssl c1 = true -> openssl c2 = false ->
      fst (main p openssl w) = 1
      /\ effects (snd (main p openssl w))
         = (effects (prepared p w) ++ [Exec c1; Exec c2])%list
      /\ files (snd (main p openssl w)) = {[ key ]} ∪ files w)
  /\ (openssl c1 = true -> openssl c2 = true -> openssl c3 = false ->
      fst (main p openssl w) = 1
      /\ effects (snd (main p openssl w))
         = (effects (prepared p w) ++ [Exec c1; Exec c2; Exec c3])%list
      /\ files (snd (main p openssl w)) = {[ csr ]} ∪ ({[ key ]} ∪ files w)).
Proof.
  cbv zeta. destruct (prepared_parts p w) as (Hfiles & _).
  destruct (main_cases p openssl w)
    as [(H1 & ->)|[(H1 & H2 & ->)|[(H1 & H2 & H3 & ->)|(H1 & H2 & H3 & ->)]]];
    (split; [|split]); intros; try congruence;
    cbn [fst snd effects files console_log tried ran out_file];
    rewrite ?Hfiles, <- ?app_assoc; repeat split.
Qed.

(** Signing fails in a fresh checkout: key and request stay. *)
Lemma generate_cert_stops_at_first_failure_witness :
  fst (main scriptProcess toolFailsAtCertificate freshWorld) = 1
  /\ files (snd (main scriptProcess toolFailsAtCertificate freshWorld))
     = {[ ["repo"; "certs"; "csr.pem"] ]}
       ∪ ({[ ["repo"; "certs"; "key.pem"] ]} ∪ ∅).
Proof.
  pose proof (proj2 (proj2 (generate_cert_stops_at_first_failure
                              scriptProcess toolFailsAtCertificate freshWorld))
                eq_refl eq_refl eq_refl) as H.
  split; [exact (proj1 H) | exact (proj2 (proj2 H))].
Defined.

(** X21. The script removes nothing but the certificate request: whatever
    [openssl] does, every file that was there before the run and is not
    [csr.pem] of the output directory is there after it, and so is every
    directory. *)
Theorem generate_cert_keeps_other_files
    (p : Process) (openssl : Command -> bool) (w : World) (f : Path) :
  (f ∈ files w -> f <> path_join (certsDir p) ["csr.pem"] ->
   f ∈ files (snd (main p openssl w)))
  /\ (f ∈ dirs w -> f ∈ dirs (snd (main p openssl w))).
Proof.
  destruct (prepared_parts p w) as (Hfiles & _ & Hdirs & _).
  assert (Hd : f ∈ dirs w -> f ∈ dirs (prepared p w)).
  { rewrite Hdirs. destruct (existsSync (certsDir p) w); [auto|].
    intros H. apply elem_of_union_r, H. }
  destruct (main_cases p openssl w)
    as [(H1 & ->)|[(H1 & H2 & ->)|[(H1 & H2 & H3 & ->)|(H1 & H2 & H3 & ->)]]];
    cbn [fst snd effects files dirs console_log tried ran unlinked out_file];
    rewrite ?Hfiles; (split; [|exact Hd]); intros Hin Hne;
    rewrite ?elem_of_difference, ?elem_of_union, ?elem_of_singleton;
    auto.
Qed.

(** The directory of the script is still there after a successful run. *)
Lemma generate_cert_keeps_other_files_witness :
  ["repo"; "scripts"] ∈ dirs (snd (main scriptProcess toolWorks freshWorld)).
Proof.
  refine (proj2 (generate_cert_keeps_other_files scriptProcess toolWorks
                   freshWorld ["repo"; "scripts"]) _).
  apply elem_of_union_r, elem_of_singleton. reflexivity.
Defined.

(** X22. The exit status tells whether all three commands succeeded: it is
    0 exactly when they all did and 1 otherwise, and the last console line
    is the success message in the first case and the error line in the
    second. *)
Theorem generate_cert_status
    (p : Process) (openssl : Command -> bool) (w : World) :
  (fst (main p openssl w) = 0
   <-> forall c, In c (commands (certsDir p)) -> openssl c = true)
  /\ (fst (main p openssl w) = 0 \/ fst (main p openssl w) = 1)
  /\ stdio (snd (main p openssl w))
     = (stdio w
        ++ [if Nat.eqb (fst (main p openssl w)) 0
            then "SSL certificates generated successfully!"
            else "Error generating certificates:"])%list.
Proof.
  destruct (prepared_parts p w) as (_ & Hstdio & _).
  unfold commands.
  destruct (main_cases p openssl w)
    as [(H1 & ->)|[(H1 & H2 & ->)|[(H1 & H2 & H3 & ->)|(H1 & H2 & H3 & ->)]]];
    cbn [fst snd stdio console_log tried ran unlinked Nat.eqb];
    rewrite Hstdio; (split; [|split; [auto|reflexivity]]).
  - split; [discriminate|]. intros Hall.
    rewrite (Hall _ (or_introl eq_refl)) in H1. discriminate H1.
  - split; [discriminate|]. intros Hall.
    rewrite (Hall _ (or_intror (or_introl eq_refl))) in H2. discriminate H2.
  - split; [discriminate|]. intros Hall.
    rewrite (Hall _ (or_intror (or_intror (or_introl eq_refl)))) in H3.
    discriminate H3.
  - split; [|reflexivity]. intros _ c [<-|[<-|[<-|[]]]]; assumption.
Qed.

Lemma exists_after (p : Process) (w w' : World) :
  existsSync (certsDir p) w = true ->
  dirs w' = dirs w ->
  (forall f, f ∈ files w -> f <> path_join (certsDir p) ["csr.pem"] ->
             f ∈ files w') ->
  existsSync (certsDir p) w' = true.
Proof.
  intros Hex Hd Hf. unfold existsSync in *.
  apply orb_true_iff in Hex as [Hex|Hex]; apply orb_true_iff;
    apply bool_decide_eq_true in Hex.
  - left. apply bool_decide_eq_true. rewrite Hd. exact Hex.
  - right. apply bool_decide_eq_true. apply Hf; [exact Hex|].
    apply csr_is_no_dir.
Qed.

(** A fresh checkout with a working [openssl]. *)
Lemma generate_cert_status_witness :
  fst (main scriptProcess toolWorks freshWorld) = 0.
Proof.
  exact (proj2 (proj1 (generate_cert_status scriptProcess toolWorks freshWorld))
           (fun c _ => eq_refl)).
Defined.

(** X23. However the run ends, the output directory exists after it; the
    script creates it only when nothing of that name was there, and makes
    no other change to the directories. *)
Theorem generate_cert_output_directory
    (p : Process) (openssl : Command -> bool) (w : World) :
  existsSync (certsDir p) (snd (main p openssl w)) = true
  /\ dirs (snd (main p openssl w))
     = (if existsSync (certsDir p) w then dirs w
        else {[ certsDir p ]} ∪ dirs w).
Proof.
  destruct (prepared_parts p w) as (Hfiles & _ & Hdirs & Hex).
  destruct (main_cases p openssl w)
    as [(H1 & ->)|[(H1 & H2 & ->)|[(H1 & H2 & H3 & ->)|(H1 & H2 & H3 & ->)]]];
    cbn [fst snd];
    (split; [apply (exists_after p (prepared p w) _ Hex)|exact Hdirs]);
    cbn [files dirs console_log tried ran unlinked out_file];
    try reflexivity; intros f Hin Hne;
    rewrite ?elem_of_difference, ?elem_of_union, ?elem_of_singleton; auto.
Qed.

Lemma main_all_ok (p : Process) (openssl : Command -> bool) (w : World) :
  (forall c, In c (commands (certsDir p)) -> openssl c = true) ->
  main p openssl w
  = (0, console_log "SSL certificates generated successfully!"
          (unlinked (path_join (certsDir p) ["csr.pem"])
             (ran (x509 365 (path_join (certsDir p) ["csr.pem"])
                     (path_join (certsDir p) ["key.pem"])
                     (path_join (certsDir p) ["cert.pem"]))
                (ran (req (path_join (certsDir p) ["key.pem"])
                        (path_join (certsDir p) ["csr.pem"]) "/CN=localhost")
                   (ran (genrsa (path_join (certsDir p) ["key.pem"]) 2048)
                      (prepared p w)))))).
Proof.
  intros Hall. unfold commands in Hall.
  pose proof (Hall _ (or_introl eq_refl)) as A1.
  pose proof (Hall _ (or_intror (or_introl eq_refl))) as A2.
  pose proof (Hall _ (or_intror (or_intror (or_introl eq_refl)))) as A3.
  destruct (main_cases p openssl w)
    as [(H1 & _)|[(H1 & H2 & _)|[(H1 & H2 & H3 & _)|(H1 & H2 & H3 & Heq)]]];
    try congruence.
Qed.

Lemma prepared_existing (p : Process) (w : World) :
  existsSync (certsDir p) w = true -> prepared p w = w.
Proof. intros Hex. unfold prepared. rewrite Hex. reflexivity. Qed.

(** X24. Running the script again after a successful run, with [openssl]
    succeeding again, succeeds without creating the directory a second
    time and leaves exactly the files and directories of the first run. *)
Theorem generate_cert_rerun
    (p : Process) (openssl : Command -> bool) (w : World) :
  (forall c, In c (commands (certsDir p)) -> openssl c = true) ->
  fst (main p openssl (snd (main p openssl w))) = 0
  /\ files (snd (main p openssl (snd (main p openssl w))))
     = files (snd (main p openssl w))
  /\ dirs (snd (main p openssl (snd (main p openssl w))))
     = dirs (snd (main p openssl w))
  /\ effects (snd (main p openssl (snd (main p openssl w))))
     = (effects (snd (main p openssl w))
        ++ map Exec (commands (certsDir p))
        ++ [Unlink (path_join (certsDir p) ["csr.pem"])])%list.
Proof.
  intros Hall.
  destruct (prepared_parts p w) as (_ & _ & _ & Hex).
  rewrite (main_all_ok p openssl w Hall). cbn [snd].
  match goal with
  | |- context [main p openssl ?w1] =>
      assert (Hex1 : existsSync (certsDir p) w1 = true);
      [|assert (Hprep : prepared p w1 = w1)
          by (apply prepared_existing, Hex1);
        rewrite (main_all_ok p openssl w1 Hall), Hprep]
  end.
  { apply (exists_after p (prepared p w) _ Hex); [reflexivity|].
    intros f Hin Hne.
    cbn [files console_log unlinked ran out_file].
    rewrite ?elem_of_difference, ?elem_of_union, ?elem_of_singleton. auto. }
  cbn [fst snd files dirs effects console_log unlinked ran out_file map
       commands].
  split; [reflexivity|]. split; [|split; [reflexivity|]].
  - apply set_eq. intros f.
    repeat (rewrite elem_of_difference || rewrite elem_of_union
            || rewrite elem_of_singleton).
    tauto.
  - rewrite <- !app_assoc. reflexivity.
Qed.

(** Two runs in a fresh checkout. *)
Lemma generate_cert_rerun_witness :
  fst (main scriptProcess toolWorks
         (snd (main scriptProcess toolWorks freshWorld))) = 0.
Proof.
  exact (proj1 (generate_cert_rerun scriptProcess toolWorks freshWorld
                  (fun c _ => eq_refl))).
Defined.
End GenerateCertProperties.

(** ** The page *)

Lemma presses_odd (n : nat) : Home.presses n = Nat.odd n.
Proof.
  induction n as [|n IH]; [reflexivity|].
  cbn [Home.presses]. unfold Home.toggle. rewrite IH.
  rewrite Nat.odd_succ, <- Nat.negb_odd. reflexivity.
Qed.

(** X25. The camera button of the page alternates: from the initial state
    it reads "Back Camera" after an even number of presses and "Front
    Camera" after an odd number, and two presses always restore the flag. *)
Theorem home_camera_label (n : nat) :
  Home.label (Home.presses n)
  = (if Nat.even n then "Back Camera" else "Front Camera")
  /\ Home.presses (S (S n)) = Home.presses n.
Proof.
  split.
  - rewrite presses_odd, <- Nat.negb_even. unfold Home.label.
    destruct (Nat.even n); reflexivity.
  - cbn [Home.presses]. unfold Home.toggle. apply negb_involutive.
Qed.
